(** * Stock visualizer (pie_chart.py): model and verified properties

    A shallow embedding of [src/pie_chart.py].  The script loads a CSV of
    (Product, Stock) pairs into a pandas frame, renders a pie chart with
    matplotlib, prints summary statistics and optionally saves the chart.

    - Python exceptions are values of [exn]; a method is a function of the
      interpreter state returning a [result] and the new state ([M]).
    - The pandas frame keeps what the code depends on: its column names and,
      per row, the index label, the Product cell ([None] is [pd.NA]) and the
      int32 Stock value.  Index labels matter: [dropna] keeps them, [idxmax]
      and [idxmin] return them, and [iloc] ignores them.
    - float64 values are the kernel's binary64 floats ([PrimFloat]).
    - The figure is the record of the arguments the chart calls receive.
      The checks [ax.pie] makes on the wedge sizes before drawing are part of
      the model (they raise ValueError); drawing itself is not.
    - Everything outside the process (the file system, the parsed file, the
      window, the keyboard, the image writer) is read from a [World]. *)

From Stdlib Require Import ZArith List String Ascii Bool Arith Lia Sorted.
From Stdlib Require Import DecimalString.
From Stdlib Require Import Floats.PrimFloat Floats.SpecFloat Floats.FloatOps.
From Stdlib Require Import Numbers.Cyclic.Int63.Uint63.
Import ListNotations.

Local Open Scope string_scope.
Set Warnings "-inexact-float".

(** ** Module constants (lines 15-21) *)

Definition CSV_FILE : string := "product_stock.csv".

(** [REQUIRED_COLUMNS] is a Python set; membership is all the code uses,
    apart from [list(REQUIRED_COLUMNS)] whose order pandas ignores. *)
Definition REQUIRED_COLUMNS : list string := ["Product"; "Stock"].

Definition COLORS : list string :=
  ["#FF6B6B"; "#4ECDC4"; "#45B7D1"; "#96CEB4"; "#FFEAA7";
   "#DDA0DD"; "#98D8C8"; "#F7DC6F"; "#BB8FCE"; "#85C1E9"].

Definition FIGURE_SIZE : Z * Z := (10%Z, 8%Z).
Definition EXPLODE_THRESHOLD : Z := 30.
Definition DPI : Z := 300.

(** ** Python values used by the script *)

(** [l * k] on a Python list. *)
Fixpoint list_mul {A : Type} (l : list A) (k : nat) : list A :=
  match k with
  | O => []
  | S k' => l ++ list_mul l k'
  end.

(** [l[:n]]. *)
Definition slice_to {A : Type} (n : nat) (l : list A) : list A := firstn n l.

(** [c * k] on a Python string made of one character. *)
Fixpoint str_mul (c : ascii) (k : nat) : string :=
  match k with
  | O => EmptyString
  | S k' => String c (str_mul c k')
  end.

Definition newline : string := String (ascii_of_nat 10) EmptyString.

(** [str.lower()] on ASCII text; [y] is the image of no character other
    than [y] and [Y], so the comparison in [main] is decided here. *)
Definition lower_ascii (c : ascii) : ascii :=
  let n := nat_of_ascii c in
  if (65 <=? n)%nat && (n <=? 90)%nat then ascii_of_nat (n + 32) else c.

Fixpoint lower (s : string) : string :=
  match s with
  | EmptyString => EmptyString
  | String c s' => String (lower_ascii c) (lower s')
  end.

(** [f"{z}"] for an integer. *)
Definition str_of_Z (z : Z) : string := NilZero.string_of_int (Z.to_int z).
Definition str_of_nat (n : nat) : string := NilZero.string_of_uint (Nat.to_uint n).

(** [f"{z:,}"]: a comma every three digits, counted from the right. *)
Fixpoint group3 (fuel : nat) (rev_digits : string) : string :=
  match fuel with
  | O => rev_digits
  | S fuel' =>
      match rev_digits with
      | String a (String b (String c (String d rest))) =>
          String a (String b (String c (String "," (group3 fuel' (String d rest)))))
      | _ => rev_digits
      end
  end.

Fixpoint rev_string (s acc : string) : string :=
  match s with
  | EmptyString => acc
  | String c s' => rev_string s' (String c acc)
  end.

Definition str_of_Z_comma (z : Z) : string :=
  let digits := NilZero.string_of_uint (N.to_uint (Z.to_N (Z.abs z))) in
  let grouped :=
    rev_string (group3 (String.length digits) (rev_string digits "")) "" in
  if (z <? 0)%Z then "-" ++ grouped else grouped.

(** *** float64 *)

(** An integer as a float64; exact below 2^53 in absolute value. *)
Definition float_of_Z (z : Z) : float :=
  if (z <? 0)%Z then PrimFloat.opp (PrimFloat.of_uint63 (Uint63.of_Z (- z)))
  else PrimFloat.of_uint63 (Uint63.of_Z z).

(** [num * 2^e] rounded to the nearest integer, ties to even. *)
Definition round_scaled (num e : Z) : Z :=
  if (0 <=? e)%Z then (num * 2 ^ e)%Z
  else
    let d := (2 ^ (- e))%Z in
    let q := (num / d)%Z in
    let r := (num mod d)%Z in
    if (2 * r <? d)%Z then q
    else if (d <? 2 * r)%Z then (q + 1)%Z
    else if Z.even q then q else (q + 1)%Z.

(** [f"{x:.1f}"]: the decimal with one fractional digit nearest to the exact
    value of the float. *)
Definition str_of_float_1f (x : float) : string :=
  match Prim2SF x with
  | S754_nan => "nan"
  | S754_infinity s => if s then "-inf" else "inf"
  | S754_zero s => if s then "-0.0" else "0.0"
  | S754_finite s m e =>
      let t := round_scaled (Z.pos m * 10) e in
      (if s then "-" else "") ++ str_of_Z (t / 10) ++ "." ++ str_of_Z (t mod 10)
  end.

(** ** Exceptions and the interpreter monad *)

Inductive exn_class : Type :=
| EmptyDataError      (* pd.errors.EmptyDataError *)
| ParserError         (* pd.errors.ParserError *)
| ValueError
| OverflowError
| IndexError
| AttributeError
| OSError
| EOFError
| KeyboardInterrupt
| SystemExit.

Record exn : Type := mk_exn { exn_cls : exn_class; exn_msg : string }.

(** [isinstance(e, Exception)]: every class above except the two that derive
    from [BaseException] directly. *)
Definition is_Exception (e : exn) : bool :=
  match exn_cls e with
  | KeyboardInterrupt | SystemExit => false
  | _ => true
  end.

Definition is_KeyboardInterrupt (e : exn) : bool :=
  match exn_cls e with
  | KeyboardInterrupt => true
  | _ => false
  end.

(** The tuple of line 61. *)
Definition is_read_error (e : exn) : bool :=
  match exn_cls e with
  | EmptyDataError | ParserError | ValueError => true
  | _ => false
  end.

Inductive result (A : Type) : Type :=
| Ret (a : A)
| Raise (e : exn).
Arguments Ret {A} a.
Arguments Raise {A} e.

Definition raise_ {A : Type} (c : exn_class) (msg : string) : result A :=
  Raise (mk_exn c msg).

(** *** The pandas frame *)

Record frame_row : Type := mk_row {
  row_label : nat;             (* the index label of the row *)
  Product : option string;     (* dtype 'string'; [None] is pd.NA *)
  Stock : Z                    (* dtype 'int32': never missing; a frame
                                  read from a file holds int32 values only *)
}.

Record DataFrame : Type := mk_frame {
  columns : list string;
  rows : list frame_row
}.

(** A column taken out of a frame: the values with their index labels. *)
Definition Series (A : Type) : Type := list (nat * A).

Definition col_Product (d : DataFrame) : Series (option string) :=
  map (fun r => (row_label r, Product r)) (rows d).

Definition col_Stock (d : DataFrame) : Series Z :=
  map (fun r => (row_label r, Stock r)) (rows d).

Definition values {A : Type} (s : Series A) : list A := map snd s.

(** [f"{p}"] for a cell of the Product column. *)
Definition str_of_product (p : option string) : string :=
  match p with
  | Some s => s
  | None => "<NA>"
  end.

(** [df.dropna()]: rows with a missing cell go, the others keep their
    labels (the index is not renumbered). *)
Definition has_na (r : frame_row) : bool :=
  match Product r with
  | Some _ => false
  | None => true
  end.

Definition dropna (d : DataFrame) : DataFrame :=
  mk_frame (columns d) (filter (fun r => negb (has_na r)) (rows d)).

Definition empty (d : DataFrame) : bool :=
  match rows d with
  | [] => true
  | _ :: _ => false
  end.

Definition series_sum (s : Series Z) : Z :=
  fold_left Z.add (values s) 0%Z.

(** [Series.mean()] of an integer column: the float64 sum over the count. *)
Definition series_mean (s : Series Z) : float :=
  PrimFloat.div (float_of_Z (series_sum s)) (float_of_Z (Z.of_nat (List.length s))).

(** The scan behind [idxmax] and [idxmin]: a later entry replaces the
    current one only when it is strictly better, so the first of several
    equal extremes is kept. *)
Fixpoint arg_best (better : Z -> Z -> bool) (best : nat * Z) (s : Series Z)
  : nat * Z :=
  match s with
  | [] => best
  | x :: s' =>
      if better (snd x) (snd best) then arg_best better x s'
      else arg_best better best s'
  end.

(** [Series.idxmax()] and [Series.idxmin()] return the index LABEL. *)
Definition idxmax (s : Series Z) : result nat :=
  match s with
  | [] => raise_ ValueError "attempt to get argmax of an empty sequence"
  | x :: s' => Ret (fst (arg_best (fun v b => (b <? v)%Z) x s'))
  end.

Definition idxmin (s : Series Z) : result nat :=
  match s with
  | [] => raise_ ValueError "attempt to get argmin of an empty sequence"
  | x :: s' => Ret (fst (arg_best (fun v b => (v <? b)%Z) x s'))
  end.

(** [Series.iloc[i]] takes a POSITION. *)
Definition iloc {A : Type} (s : Series A) (i : nat) : result A :=
  match nth_error (values s) i with
  | Some v => Ret v
  | None => raise_ IndexError "single positional indexer is out-of-bounds"
  end.

(** *** The file as the CSV reader sees it *)

(** A Stock field is empty or holds an integer literal, of any length;
    fields with other text (words, decimals) are outside the model. *)
Inductive stock_cell : Type :=
| StockNA                   (* an empty field, or one of the NA spellings *)
| StockInt (z : Z).         (* an integer literal *)

Record csv_row : Type := mk_csv_row {
  cell_Product : option string;
  cell_Stock : stock_cell
}.

Inductive csv_file : Type :=
| EmptyFile                                          (* no header line *)
| Malformed (msg : string)                           (* the tokenizer gives up *)
| Unreadable (msg : string)                          (* open() fails *)
| Table (header : list string) (body : list csv_row).

Definition mem (x : string) (l : list string) : bool :=
  existsb (String.eqb x) l.
Arguments mem : simpl never.

Definition issubset (a b : list string) : bool :=
  forallb (fun x => mem x b) a.
Arguments issubset : simpl never.

(** [a - b] on sets of names. *)
Definition set_diff (a b : list string) : list string :=
  filter (fun x => negb (mem x b)) a.

Fixpoint index_of (x : string) (l : list string) : nat :=
  match l with
  | [] => O
  | y :: l' => if String.eqb x y then O else S (index_of x l')
  end.

(** The integer types the reader goes through. *)
Definition in_int32 (z : Z) : bool :=
  ((- 2 ^ 31 <=? z) && (z <? 2 ^ 31))%Z.

(** A literal too long even for the unsigned 64-bit parser. *)
Definition stock_above_uint64 (r : csv_row) : bool :=
  match cell_Stock r with
  | StockInt z => (2 ^ 64 <=? z)%Z
  | _ => false
  end.

(** A literal only the unsigned 64-bit parser can read. *)
Definition stock_unsigned64 (r : csv_row) : bool :=
  match cell_Stock r with
  | StockInt z => ((2 ^ 63 <=? z) && (z <? 2 ^ 64))%Z
  | _ => false
  end.

(** A negative literal too long for the signed 64-bit parser. *)
Definition stock_below_int64 (r : csv_row) : bool :=
  match cell_Stock r with
  | StockInt z => (z <? - 2 ^ 63)%Z
  | _ => false
  end.

Definition stock_out_of_int32 (r : csv_row) : bool :=
  match cell_Stock r with
  | StockInt z => negb (in_int32 z)
  | _ => false
  end.

Definition stock_is_na (r : csv_row) : bool :=
  match cell_Stock r with
  | StockNA => true
  | _ => false
  end.

Definition stock_value (c : stock_cell) : Z :=
  match c with
  | StockInt z => z
  | _ => 0%Z
  end.

(** A freshly read frame numbers its rows 0, 1, 2, ... *)
Fixpoint index_rows (label : nat) (body : list csv_row) : list frame_row :=
  match body with
  | [] => []
  | r :: body' =>
      mk_row label (cell_Product r) (stock_value (cell_Stock r))
      :: index_rows (S label) body'
  end.

Fixpoint repr_names (l : list string) : string :=
  match l with
  | [] => ""
  | [x] => "'" ++ x ++ "'"
  | x :: l' => "'" ++ x ++ "', " ++ repr_names l'
  end.

(** The text of the ValueError for names of [usecols] the header lacks. *)
Definition usecols_message (header : list string) : string :=
  "Usecols do not match columns, columns expected but not found: ["
    ++ repr_names (set_diff REQUIRED_COLUMNS header) ++ "]".

(** The text of the ValueError for a column that cannot be cast to the
    int32 the caller asked for. *)
Definition unsafe_cast_message (header : list string) (found : string)
  : string :=
  "cannot safely convert passed user dtype of int32 for " ++ found
    ++ " dtyped data in column " ++ str_of_nat (index_of "Stock" header).

(** [pd.read_csv(path, usecols=list(REQUIRED_COLUMNS),
                 dtype={'Product': 'string', 'Stock': 'int32'})].
    - a file with no header raises EmptyDataError;
    - a name of [usecols] absent from the header raises ValueError;
    - the Stock column is read with the signed 64-bit integer parser and,
      when a literal overflows it, with the unsigned one: a literal of 2^64
      or more raises OverflowError; one from 2^63 up makes the column
      unsigned, which cannot be cast to int32 (ValueError); a literal below
      -2^63 raises OverflowError;
    - an integer dtype cannot hold NA: a missing Stock field raises
      ValueError (the 'string' dtype of Product can, and reads pd.NA);
    - a column with a value outside int32 cannot be cast to the dtype asked
      for: ValueError. *)
Definition read_csv (f : csv_file) : result DataFrame :=
  match f with
  | EmptyFile => raise_ EmptyDataError "No columns to parse from file"
  | Malformed msg => raise_ ParserError msg
  | Unreadable msg => raise_ OSError msg
  | Table header body =>
      if negb (issubset REQUIRED_COLUMNS header) then
        raise_ ValueError (usecols_message header)
      else if existsb stock_above_uint64 body then
        raise_ OverflowError "Overflow"
      else if existsb stock_unsigned64 body then
        raise_ ValueError (unsafe_cast_message header "uint64")
      else if existsb stock_below_int64 body then
        raise_ OverflowError "Overflow"
      else if existsb stock_is_na body then
        raise_ ValueError
          ("Integer column has NA values in column "
             ++ str_of_nat (index_of "Stock" header))
      else if existsb stock_out_of_int32 body then
        raise_ ValueError (unsafe_cast_message header "int64")
      else
        Ret (mk_frame (filter (fun c => mem c REQUIRED_COLUMNS) header)
                      (index_rows 0 body))
  end.

(** *** The figure *)

Record Figure : Type := mk_figure {
  fig_figsize : Z * Z;
  pie_x : list Z;
  pie_labels : list (option string);
  pie_autopct : string;
  pie_startangle : Z;
  pie_colors : list string;
  pie_explode : list float;
  pie_shadow : bool;
  autotext_color : string;
  autotext_weight : string;
  fig_title : string;
  legend_labels : list string;
  legend_title : string;
  legend_loc : string
}.

(** matplotlib hands the wedges the entries of [colors] in turn, starting
    again at the first one when the list is exhausted. *)
Definition wedge_color (fig : Figure) (i : nat) : option string :=
  nth_error (pie_colors fig) (i mod List.length (pie_colors fig)).

(** *** The world outside the process *)

Record World : Type := mk_world {
  path_exists : string -> bool;         (* Path.exists() *)
  file_at : string -> csv_file;         (* what read_csv finds at a path *)
  show_outcome : result unit;           (* plt.show() *)
  input_outcome : result string;        (* input(prompt) *)
  savefig_outcome : string -> result unit  (* fig.savefig(filename, ...) *)
}.

(** *** Interpreter state and monad *)

Record state : Type := mk_state {
  csv_path : string;              (* self.csv_path *)
  df : option DataFrame;          (* self.df *)
  stdout : list string            (* what has been written to the console *)
}.

Definition M (A : Type) : Type := state -> result A * state.

Definition ret {A : Type} (a : A) : M A := fun st => (Ret a, st).

Definition bind {A B : Type} (m : M A) (k : A -> M B) : M B :=
  fun st =>
    match m st with
    | (Ret a, st') => k a st'
    | (Raise e, st') => (Raise e, st')
    end.

Declare Scope py_scope.
Delimit Scope py_scope with py.
Notation "x <- m ;; k" := (bind m (fun x => k))
  (at level 61, m at next level, right associativity) : py_scope.
Notation "m ;; k" := (bind m (fun _ => k))
  (at level 61, right associativity) : py_scope.
Local Open Scope py_scope.

Definition lift {A : Type} (r : result A) : M A := fun st => (r, st).

Definition get : M state := fun st => (Ret st, st).

Definition set_df (d : option DataFrame) : M unit :=
  fun st => (Ret tt, mk_state (csv_path st) d (stdout st)).

Definition print (s : string) : M unit :=
  fun st => (Ret tt, mk_state (csv_path st) (df st) (stdout st ++ [s])).

(** [try: body except <classes> as e: handler e]; [handler] answers [None]
    for an exception its clauses do not name, which then goes on upwards. *)
Definition try_except {A : Type} (body : M A) (handler : exn -> option (M A))
  : M A :=
  fun st =>
    match body st with
    | (Ret a, st') => (Ret a, st')
    | (Raise e, st') =>
        match handler e with
        | Some h => h st'
        | None => (Raise e, st')
        end
    end.

(** [try: body finally: fin]. *)
Definition try_finally {A : Type} (body : M A) (fin : M unit) : M A :=
  fun st =>
    match body st with
    | (r, st') =>
        match fin st' with
        | (Ret _, st'') => (r, st'')
        | (Raise e, st'') => (Raise e, st'')
        end
    end.

(** ** class StockVisualizer *)

(** [__init__] (lines 28-30), followed by nothing printed yet. *)
Definition init (csv_file : string) : state := mk_state csv_file None [].

(** [{missing}] for the set of missing names: ['a', 'b'] between braces. *)
Definition repr_set (l : list string) : string :=
  match l with
  | [] => "set()"
  | _ => "{" ++ repr_names l ++ "}"
  end.

(** [self.df.dropna(inplace=True)] *)
Definition dropna_inplace : M unit :=
  st <- get ;;
  match df st with
  | Some d => set_df (Some (dropna d))
  | None => lift (raise_ AttributeError
                    "'NoneType' object has no attribute 'dropna'")
  end.

(** [load_data] (lines 32-63). *)
Definition load_data (w : World) : M bool :=
  st <- get ;;
  if negb (path_exists w (csv_path st)) then
    print ("Error: " ++ csv_path st ++ " not found!") ;;
    ret false
  else
    try_except
      (frame <- lift (read_csv (file_at w (csv_path st))) ;;
       set_df (Some frame) ;;
       if negb (issubset REQUIRED_COLUMNS (columns frame)) then
         print ("Error: Missing columns: "
                  ++ repr_set (set_diff REQUIRED_COLUMNS (columns frame))) ;;
         ret false
       else
         dropna_inplace ;;
         st' <- get ;;
         if match df st' with Some d => empty d | None => true end then
           print "Error: No valid data found!" ;;
           ret false
         else
           ret true)
      (fun e =>
         if is_read_error e then
           Some (print ("Error reading CSV: " ++ exn_msg e) ;; ret false)
         else None).

(** [_get_chart_data] (lines 65-67). *)
Definition _get_chart_data (d : DataFrame) : Series (option string) * Series Z :=
  (col_Product d, col_Stock d).

(** [_calculate_explode] (lines 69-71):
    [np.where(stock_values < EXPLODE_THRESHOLD, 0.05, 0)]. *)
Definition _calculate_explode (stock_values : Series Z) : list float :=
  map (fun v => if (v <? EXPLODE_THRESHOLD)%Z then 0.05%float else 0%float)
      (values stock_values).

(** Line 93: [COLORS * ((total_products // len(COLORS)) + 1)]. *)
Definition colors_cycle (total_products : nat) : list string :=
  list_mul COLORS (total_products / List.length COLORS + 1).

(** What [ax.pie] (line 100) refuses before drawing anything: a negative
    wedge size, and sizes that are all zero, an empty sequence among them
    (there is nothing to normalise). *)
Definition pie_check (x : list Z) : result unit :=
  if existsb (fun v => (v <? 0)%Z) x then
    raise_ ValueError "Wedge sizes 'x' must be non negative values"
  else if forallb (fun v => (v =? 0)%Z) x then
    raise_ ValueError "All wedge sizes are zero"
  else Ret tt.

(** [create_visualization] (lines 83-125). *)
Definition create_visualization : M (option Figure) :=
  st <- get ;;
  match df st with
  | None => ret None
  | Some d =>
      let '(products, stock_values) := _get_chart_data d in
      let explode_values := _calculate_explode stock_values in
      let total_products := List.length products in
      let colors_cycle := colors_cycle total_products in
      let legend :=
        map (fun ps => str_of_product (fst ps) ++ ": " ++ str_of_Z (snd ps))
            (combine (values products) (values stock_values)) in
      lift (pie_check (values stock_values)) ;;
      ret (Some (mk_figure
                   FIGURE_SIZE
                   (values stock_values)
                   (values products)
                   "%1.1f%%"
                   90%Z
                   (slice_to total_products colors_cycle)
                   explode_values
                   true
                   "white"
                   "bold"
                   "Product Stock Distribution"
                   legend
                   "Stock Units"
                   "center left"))
  end.

(** [print_statistics] (lines 127-148).  An f-string is evaluated before it
    is printed: when a lookup in it raises, the lines before it are already
    on the console and the line itself is not. *)
Definition print_statistics : M unit :=
  st <- get ;;
  match df st with
  | None => ret tt
  | Some d =>
      let stock_values := col_Stock d in
      let products := col_Product d in
      let total_stock := series_sum stock_values in
      let avg_stock := series_mean stock_values in
      max_idx <- lift (idxmax stock_values) ;;
      min_idx <- lift (idxmin stock_values) ;;
      print (newline ++ str_mul "=" 50) ;;
      print "STOCK ANALYSIS" ;;
      print (str_mul "=" 50) ;;
      print ("Total Stock: " ++ str_of_Z_comma total_stock ++ " units") ;;
      print ("Products: " ++ str_of_nat (List.length products)) ;;
      print ("Average Stock: " ++ str_of_float_1f avg_stock ++ " units") ;;
      hi_p <- lift (iloc products max_idx) ;;
      hi_s <- lift (iloc stock_values max_idx) ;;
      print ("Highest: " ++ str_of_product hi_p
               ++ " (" ++ str_of_Z hi_s ++ " units)") ;;
      lo_p <- lift (iloc products min_idx) ;;
      lo_s <- lift (iloc stock_values min_idx) ;;
      print ("Lowest: " ++ str_of_product lo_p
               ++ " (" ++ str_of_Z lo_s ++ " units)")
  end.

(** [save_chart] (lines 150-159). *)
Definition save_chart (w : World) (fig : Figure) (filename : string) : M bool :=
  try_except
    (lift (savefig_outcome w filename) ;;
     print ("Chart saved: " ++ filename) ;;
     ret true)
    (fun e =>
       if is_Exception e then
         Some (print ("Save error: " ++ exn_msg e) ;; ret false)
       else None).

(** [cleanup] (lines 161-165); a deleted slot is shown as [None]. *)
Definition cleanup : M unit :=
  st <- get ;;
  match df st with
  | Some _ => set_df None
  | None => ret tt
  end.

(** ** The entry point *)

(** [plt.show()] and [input(prompt)]; the prompt goes to the console. *)
Definition show (w : World) : M unit := lift (show_outcome w).

Definition input (w : World) (prompt : string) : M string :=
  print prompt ;; lift (input_outcome w).

(** The object [main] works on: the methods it calls on [visualizer]. *)
Record Visualizer : Type := mk_visualizer {
  v_load_data : M bool;
  v_create_visualization : M (option Figure);
  v_print_statistics : M unit;
  v_save_chart : Figure -> string -> M bool;
  v_cleanup : M unit
}.

(** [StockVisualizer()], line 169. *)
Definition StockVisualizer (w : World) : Visualizer :=
  mk_visualizer (load_data w) create_visualization print_statistics
    (save_chart w) cleanup.

(** The body of the [try] of [main] (lines 172-192). *)
Definition main_body_of (visualizer : Visualizer) (w : World) : M Z :=
  ok <- v_load_data visualizer ;;
  if negb ok then ret 1%Z
  else
    fig <- v_create_visualization visualizer ;;
    match fig with
    | None => print "Failed to create visualization" ;; ret 1%Z
    | Some fig =>
        v_print_statistics visualizer ;;
        show w ;;
        answer <- input w (newline ++ "Save chart? (y/N): ") ;;
        (if String.eqb (lower answer) "y"
         then v_save_chart visualizer fig "stock_chart.png" ;; ret tt
         else ret tt) ;;
        ret 0%Z
    end.

(** [main] (lines 167-201), for a given visualizer object. *)
Definition main_of (visualizer : Visualizer) (w : World) : M Z :=
  try_finally
    (try_except (main_body_of visualizer w)
       (fun e =>
          if is_KeyboardInterrupt e then
            Some (print (newline ++ "Operation cancelled by user") ;; ret 1%Z)
          else if is_Exception e then
            Some (print ("Unexpected error: " ++ exn_msg e) ;; ret 1%Z)
          else None))
    (v_cleanup visualizer).

Definition main_body (w : World) : M Z := main_body_of (StockVisualizer w) w.

Definition main (w : World) : M Z := main_of (StockVisualizer w) w.

(** Running the script: [StockVisualizer()] then [main], whose result line
    207 hands to [sys.exit] as the exit status of the process. *)
Definition run (w : World) : result Z * state := main w (init CSV_FILE).

(** ** Vocabulary of the properties *)

(** *** Files and loads *)

Definition stock_is_int (r : csv_row) : bool :=
  match cell_Stock r with
  | StockInt _ => true
  | _ => false
  end.

Definition has_product (r : csv_row) : bool :=
  match cell_Product r with
  | Some _ => true
  | None => false
  end.

(** A Stock field that holds an int32 literal. *)
Definition stock_storable (r : csv_row) : bool :=
  match cell_Stock r with
  | StockInt z => in_int32 z
  | StockNA => false
  end.

(** A row of the file with both fields present. *)
Definition row_complete (r : csv_row) : bool :=
  has_product r && stock_is_int r.

(** The state a failing load leaves behind. *)
Definition report (st : state) (line : string) : state :=
  mk_state (csv_path st) (df st) (stdout st ++ [line]).

Definition printed (st : state) (lines : list string) : state :=
  mk_state (csv_path st) (df st) (stdout st ++ lines).

(** *** Charts *)

(** The chart of a frame, read off its rows: what lines 88-122 pass to
    matplotlib. *)
Definition chart_of (d : DataFrame) : Figure :=
  mk_figure
    (10%Z, 8%Z)
    (map Stock (rows d))
    (map Product (rows d))
    "%1.1f%%"
    90%Z
    (firstn (List.length (rows d))
            (list_mul COLORS (List.length (rows d) / 10 + 1)))
    (map (fun r => if (Stock r <? 30)%Z then 0.05%float else 0%float) (rows d))
    true
    "white"
    "bold"
    "Product Stock Distribution"
    (map (fun r => str_of_product (Product r) ++ ": " ++ str_of_Z (Stock r))
         (rows d))
    "Stock Units"
    "center left".

(** *** Statistics *)

(** The six lines printed before the two extremes. *)
Definition stats_header (d : DataFrame) : list string :=
  [newline ++ str_mul "=" 50;
   "STOCK ANALYSIS";
   str_mul "=" 50;
   "Total Stock: " ++ str_of_Z_comma (series_sum (col_Stock d)) ++ " units";
   "Products: " ++ str_of_nat (List.length (col_Product d));
   "Average Stock: " ++ str_of_float_1f (series_mean (col_Stock d)) ++ " units"].

Definition extreme_line (tag : string) (r : frame_row) : string :=
  tag ++ str_of_product (Product r) ++ " (" ++ str_of_Z (Stock r) ++ " units)".

Definition out_of_bounds {A : Type} : result A :=
  raise_ IndexError "single positional indexer is out-of-bounds".

(** Entry [x] sits at position [p] of the column and is the first entry,
    in order, whose value is extreme for [key]. *)
Definition first_best (key : Z -> Z) (s : Series Z) (p : nat) (x : nat * Z)
  : Prop :=
  nth_error s p = Some x
  /\ (forall q y, nth_error s q = Some y -> (key (snd y) <= key (snd x))%Z)
  /\ (forall q y, q < p -> nth_error s q = Some y ->
        (key (snd y) < key (snd x))%Z).

(** [r] is the first row of [rs], in order, whose Stock is extreme for
    [key]: largest Stock with [key z = z], smallest with [key z = - z]. *)
Definition first_extreme (key : Z -> Z) (rs : list frame_row) (r : frame_row)
  : Prop :=
  exists p,
    nth_error rs p = Some r
    /\ (forall q r', nth_error rs q = Some r' ->
          (key (Stock r') <= key (Stock r))%Z)
    /\ (forall q r', q < p -> nth_error rs q = Some r' ->
          (key (Stock r') < key (Stock r))%Z).

(** Every row sits at the position its label names: nothing was dropped. *)
Definition positional (d : DataFrame) : Prop :=
  forall p r, nth_error (rows d) p = Some r -> row_label r = p.

(** *** Runs of the entry point *)

Definition st0 : state := init CSV_FILE.

Definition save_prompt : string := newline ++ "Save chart? (y/N): ".

(** How far a run gets: the figure is built, the statistics are printed,
    the window is shown, the question is answered. *)
Definition rendered (w : World) (fig : Figure) (st : state) : Prop :=
  exists st1,
    load_data w st0 = (Ret true, st1)
    /\ create_visualization st1 = (Ret (Some fig), st).

Definition reported (w : World) (fig : Figure) (st : state) : Prop :=
  exists st2, rendered w fig st2 /\ print_statistics st2 = (Ret tt, st).

Definition shown (w : World) (fig : Figure) (st : state) : Prop :=
  reported w fig st /\ show_outcome w = Ret tt.

Definition asked (w : World) (fig : Figure) (st : state) (answer : string)
  : Prop :=
  shown w fig st /\ input_outcome w = Ret answer.

(** Every step of the pipeline completes; a save that is asked for may
    fail with an error, which [save_chart] reports and absorbs. *)
Definition pipeline_succeeds (w : World) : Prop :=
  exists fig st answer,
    asked w fig st answer
    /\ (lower answer = "y" ->
        forall e, savefig_outcome w "stock_chart.png" = Raise e ->
                  is_Exception e = true).

(** Exception [e] leaves one of the steps. *)
Definition escapes (w : World) (e : exn) : Prop :=
  fst (load_data w st0) = Raise e
  \/ (exists st1,
        load_data w st0 = (Ret true, st1)
        /\ fst (create_visualization st1) = Raise e)
  \/ (exists fig st, rendered w fig st /\ fst (print_statistics st) = Raise e)
  \/ (exists fig st, reported w fig st /\ show_outcome w = Raise e)
  \/ (exists fig st, shown w fig st /\ input_outcome w = Raise e)
  \/ (exists fig st answer,
        asked w fig st answer /\ lower answer = "y"
        /\ savefig_outcome w "stock_chart.png" = Raise e
        /\ is_Exception e = false).

Definition load_failure (w : World) : Prop :=
  fst (load_data w st0) = Ret false.

(** The chart comes back null after a load that answered [True]: the test
    of line 178. *)
Definition render_failure (w : World) : Prop :=
  exists st1 st2,
    load_data w st0 = (Ret true, st1)
    /\ create_visualization st1 = (Ret None, st2).

Definition user_cancellation (w : World) : Prop :=
  exists e, escapes w e /\ is_KeyboardInterrupt e = true.

Definition unexpected_error (w : World) : Prop :=
  exists e, escapes w e /\ is_Exception e = true.

Definition pipeline_failure (w : World) : Prop :=
  load_failure w \/ render_failure w
  \/ user_cancellation w \/ unexpected_error w.

(** The handlers and the [finally] of [main]: a result of the body stays,
    KeyboardInterrupt and every Exception become 1, anything else goes on. *)
Definition exit_of (r : result Z) : result Z :=
  match r with
  | Ret z => Ret z
  | Raise e =>
      if is_KeyboardInterrupt e || is_Exception e then Ret 1%Z else Raise e
  end.

(** The world [w] with another image writer. *)
Definition with_savefig (w : World) (f : string -> result unit) : World :=
  mk_world (path_exists w) (file_at w) (show_outcome w) (input_outcome w) f.

(** What a line of the file and a row of the frame say about a record. *)
Definition line_record (c : csv_row) : option string * Z :=
  (cell_Product c, stock_value (cell_Stock c)).

Definition row_record (r : frame_row) : option string * Z :=
  (Product r, Stock r).

(** The state [cleanup] leaves: the frame is gone, the rest stays. *)
Definition cleaned (st : state) : state :=
  mk_state (csv_path st) None (stdout st).

Definition cancelled_line : string := newline ++ "Operation cancelled by user".

(** *** Sample files, worlds and frames *)

(** A world in which the file exists with the given content, the window
    closes normally, the user types [answer] and the image can be written. *)
Definition quiet_world (f : csv_file) (answer : string) : World :=
  mk_world (fun _ => true) (fun _ => f) (Ret tt) (Ret answer) (fun _ => Ret tt).

Definition csv (body : list csv_row) : csv_file :=
  Table ["Product"; "Stock"] body.

Definition entry (p : string) (z : Z) : csv_row :=
  mk_csv_row (Some p) (StockInt z).

(** A line whose Product field is empty. *)
Definition unnamed (z : Z) : csv_row := mk_csv_row None (StockInt z).

(** A line whose Stock field is empty. *)
Definition uncounted (p : string) : csv_row := mk_csv_row (Some p) StockNA.

Definition rule : string := str_mul "=" 50.

Definition boundary_state : state :=
  mk_state CSV_FILE
    (Some (mk_frame REQUIRED_COLUMNS
             [mk_row 0 (Some "A") 30; mk_row 1 (Some "B") 29]))
    [].

(** The figure [create_visualization] builds from [boundary_state]. *)
Definition boundary_figure : Figure :=
  mk_figure FIGURE_SIZE [30; 29]%Z [Some "A"; Some "B"] "%1.1f%%" 90%Z
    ["#FF6B6B"; "#4ECDC4"] [0%float; 0.05%float] true "white" "bold"
    "Product Stock Distribution" ["A: 30"; "B: 29"] "Stock Units"
    "center left".

(** The state after loading the file [A,-5 / B,10]. *)
Definition negative_state : state :=
  mk_state CSV_FILE
    (Some (mk_frame ["Product"; "Stock"]
             [mk_row 0 (Some "A") (-5); mk_row 1 (Some "B") 10]))
    [].

Definition frame23 : DataFrame :=
  mk_frame REQUIRED_COLUMNS (index_rows 0 (repeat (entry "P" 1) 23)).

Definition state23 : state := mk_state CSV_FILE (Some frame23) [].

(** * Properties *)

(** Unfolding the monad on a goal about a method of the visualizer. *)
Ltac run_py :=
  unfold bind, get, ret, lift, print, set_df, try_except, raise_; simpl.

(** ** Lists: repetition and slicing *)

Section ListFacts.
Context {A : Type}.

Lemma length_list_mul (l : list A) (k : nat) :
  List.length (list_mul l k) = k * List.length l.
Proof.
  induction k as [|k IH]; simpl; [reflexivity|].
  rewrite length_app, IH. reflexivity.
Qed.

(** Entry [i] of [l * k] is entry [i mod len(l)] of [l]. *)
Lemma nth_error_list_mul (l : list A) (k i : nat) :
  i < k * List.length l ->
  nth_error (list_mul l k) i = nth_error l (i mod List.length l).
Proof.
  revert i. induction k as [|k IH]; intros i Hi; simpl in *; [lia|].
  destruct (Nat.lt_ge_cases i (List.length l)) as [Hlt|Hge].
  - rewrite nth_error_app1 by exact Hlt.
    rewrite Nat.mod_small by exact Hlt. reflexivity.
  - rewrite nth_error_app2 by exact Hge.
    rewrite IH by lia.
    assert (Hpos : List.length l <> 0) by lia.
    replace i with ((i - List.length l) + 1 * List.length l) at 2 by lia.
    rewrite Nat.Div0.mod_add. reflexivity.
Qed.

Lemma length_slice_to (n : nat) (l : list A) :
  n <= List.length l -> List.length (slice_to n l) = n.
Proof. intros H. unfold slice_to. rewrite length_firstn. lia. Qed.

Lemma nth_error_slice_to (n i : nat) (l : list A) :
  i < n -> nth_error (slice_to n l) i = nth_error l i.
Proof.
  intros H. unfold slice_to. rewrite nth_error_firstn.
  apply Nat.ltb_lt in H. rewrite H. reflexivity.
Qed.
End ListFacts.

Lemma length_COLORS : List.length COLORS = 10.
Proof. reflexivity. Qed.

Lemma colors_cycle_covers (n : nat) : n < List.length (colors_cycle n).
Proof.
  unfold colors_cycle. rewrite length_list_mul, length_COLORS.
  pose proof (Nat.div_mod_eq n 10) as Hdm.
  pose proof (Nat.mod_upper_bound n 10) as Hub.
  lia.
Qed.

(** The colour list handed to [ax.pie] for [n] records. *)
Lemma chart_colors_nth (n i : nat) :
  i < n ->
  nth_error (slice_to n (colors_cycle n)) i = nth_error COLORS (i mod 10).
Proof.
  intros Hi. rewrite nth_error_slice_to by exact Hi.
  unfold colors_cycle. rewrite nth_error_list_mul.
  - rewrite length_COLORS. reflexivity.
  - pose proof (colors_cycle_covers n) as Hc.
    unfold colors_cycle in Hc. rewrite length_list_mul in Hc. lia.
Qed.

Lemma chart_colors_length (n : nat) :
  List.length (slice_to n (colors_cycle n)) = n.
Proof.
  apply length_slice_to. pose proof (colors_cycle_covers n). lia.
Qed.

(** ** The renderer *)

Lemma length_values {A : Type} (s : Series A) :
  List.length (values s) = List.length s.
Proof. apply length_map. Qed.

Lemma length_col_Product (d : DataFrame) :
  List.length (col_Product d) = List.length (rows d).
Proof. apply length_map. Qed.

Lemma values_col_Stock (d : DataFrame) :
  values (col_Stock d) = map Stock (rows d).
Proof. unfold values, col_Stock. rewrite map_map. reflexivity. Qed.

Lemma values_col_Product (d : DataFrame) :
  values (col_Product d) = map Product (rows d).
Proof. unfold values, col_Product. rewrite map_map. reflexivity. Qed.

Lemma combine_map {A B C : Type} (f : A -> B) (g : A -> C) (l : list A) :
  combine (map f l) (map g l) = map (fun x => (f x, g x)) l.
Proof.
  induction l as [|x l IH]; simpl; [reflexivity|]. rewrite IH. reflexivity.
Qed.

(** [create_visualization] on a loaded frame: the chart call either refuses
    the sizes or the chart of the frame is returned; the visualizer is left
    as it was. *)
Lemma create_visualization_unfold (st : state) (d : DataFrame) :
  df st = Some d ->
  create_visualization st =
    match pie_check (map Stock (rows d)) with
    | Ret _ => (Ret (Some (chart_of d)), st)
    | Raise e => (Raise e, st)
    end.
Proof.
  intros Hdf. unfold create_visualization, bind, get, lift, ret.
  cbn [fst snd]. rewrite Hdf. cbn [_get_chart_data].
  rewrite values_col_Stock.
  destruct (pie_check (map Stock (rows d))) as [[]|e]; [|reflexivity].
  unfold chart_of, _calculate_explode, colors_cycle, slice_to,
    EXPLODE_THRESHOLD, FIGURE_SIZE.
  rewrite values_col_Stock, values_col_Product, length_col_Product.
  rewrite length_COLORS, combine_map, !map_map. reflexivity.
Qed.

Lemma pie_check_cases (x : list Z) :
  pie_check x = Ret tt \/ exists msg, pie_check x = raise_ ValueError msg.
Proof.
  unfold pie_check.
  destruct (existsb (fun v => (v <? 0)%Z) x); [right; eexists; reflexivity|].
  destruct (forallb (fun v => (v =? 0)%Z) x); [right; eexists; reflexivity|].
  left. reflexivity.
Qed.



(** No sizes at all are refused. *)
Lemma pie_check_nil : pie_check [] = raise_ ValueError "All wedge sizes are zero".
Proof. reflexivity. Qed.

Lemma chart_of_shape (d : DataFrame) :
  pie_x (chart_of d) = map Stock (rows d)
  /\ pie_labels (chart_of d) = map Product (rows d)
  /\ pie_explode (chart_of d) = _calculate_explode (col_Stock d)
  /\ pie_colors (chart_of d) =
       slice_to (List.length (rows d)) (colors_cycle (List.length (rows d))).
Proof.
  unfold chart_of, _calculate_explode, colors_cycle, slice_to,
    EXPLODE_THRESHOLD. cbn [pie_x pie_labels pie_explode pie_colors].
  rewrite values_col_Stock, map_map, length_COLORS.
  repeat split; reflexivity.
Qed.

(** A figure returned for a loaded frame is the chart of that frame, and
    the visualizer is left as it was. *)
Lemma create_visualization_figure (st st' : state) (d : DataFrame)
      (fig : Figure) :
  df st = Some d ->
  create_visualization st = (Ret (Some fig), st') ->
  st' = st /\ fig = chart_of d.
Proof.
  intros Hdf Hfig. rewrite (create_visualization_unfold st d Hdf) in Hfig.
  destruct (pie_check (map Stock (rows d))) as [[]|e]; [|discriminate].
  injection Hfig as <- <-. split; reflexivity.
Qed.

Lemma create_visualization_shape (st st' : state) (d : DataFrame)
      (fig : Figure) :
  df st = Some d ->
  create_visualization st = (Ret (Some fig), st') ->
  st' = st
  /\ pie_x fig = map Stock (rows d)
  /\ pie_labels fig = map Product (rows d)
  /\ pie_explode fig = _calculate_explode (col_Stock d)
  /\ pie_colors fig =
       slice_to (List.length (rows d)) (colors_cycle (List.length (rows d))).
Proof.
  intros Hdf Hfig.
  destruct (create_visualization_figure st st' d fig Hdf Hfig) as [-> ->].
  split; [reflexivity|]. apply chart_of_shape.
Qed.

(** On a loaded frame the method never answers [None]. *)
Lemma create_visualization_not_none (st : state) (d : DataFrame) :
  df st = Some d -> fst (create_visualization st) <> Ret None.
Proof.
  intros Hdf. rewrite (create_visualization_unfold st d Hdf).
  destruct (pie_check (map Stock (rows d))) as [[]|e]; discriminate.
Qed.

Lemma calculate_explode_nth (d : DataFrame) (i : nat) (r : frame_row) :
  nth_error (rows d) i = Some r ->
  nth_error (_calculate_explode (col_Stock d)) i =
    Some (if (Stock r <? EXPLODE_THRESHOLD)%Z then 0.05%float else 0%float).
Proof.
  intros Hr. unfold _calculate_explode.
  rewrite values_col_Stock, map_map, nth_error_map, Hr. reflexivity.
Qed.

(** C2.  In the figure built from a loaded frame, the explode offset of a
    record is 0.05 when its Stock is below 30 and 0 when it is 30 or more;
    in particular Stock = 30 gives 0 and Stock = 29 gives 0.05.  There is one
    offset per record, and the two offsets are different numbers. *)
Theorem explode_offset_threshold :
  forall (st st' : state) (d : DataFrame) (fig : Figure) (i : nat)
         (r : frame_row),
    df st = Some d ->
    create_visualization st = (Ret (Some fig), st') ->
    nth_error (rows d) i = Some r ->
    ((Stock r < 30)%Z -> nth_error (pie_explode fig) i = Some 0.05%float)
    /\ ((30 <= Stock r)%Z -> nth_error (pie_explode fig) i = Some 0%float)
    /\ (Stock r = 30%Z -> nth_error (pie_explode fig) i = Some 0%float)
    /\ (Stock r = 29%Z -> nth_error (pie_explode fig) i = Some 0.05%float)
    /\ List.length (pie_explode fig) = List.length (rows d)
    /\ PrimFloat.eqb 0.05 0 = false.
Proof.
  intros st st' d fig i r Hdf Hfig Hr.
  destruct (create_visualization_shape st st' d fig Hdf Hfig) as (_ & Hshape).
  destruct Hshape as (_ & _ & Hexp & _).
  pose proof (calculate_explode_nth d i r Hr) as Hnth.
  rewrite <- Hexp in Hnth. unfold EXPLODE_THRESHOLD in Hnth.
  assert (Hlt : forall z, (z < 30)%Z -> (z <? 30)%Z = true)
    by (intros z Hz; apply Z.ltb_lt; exact Hz).
  assert (Hge : forall z, (30 <= z)%Z -> (z <? 30)%Z = false)
    by (intros z Hz; apply Z.ltb_ge; exact Hz).
  repeat split.
  - intros H. rewrite Hnth, (Hlt _ H). reflexivity.
  - intros H. rewrite Hnth, (Hge _ H). reflexivity.
  - intros H. rewrite Hnth, H. reflexivity.
  - intros H. rewrite Hnth, H. reflexivity.
  - rewrite Hexp. unfold _calculate_explode.
    rewrite length_map, length_values. apply length_map.
Qed.

(** C3.  In the figure built from a loaded frame, record [i] (counted from
    0) is given palette colour [i mod 10], both as entry [i] of the colour
    list passed to the chart and as the colour its wedge is drawn in; with 23
    records the 1st, 11th and 21st wedges share the first palette colour. *)
Theorem color_assignment_cycles :
  forall (st st' : state) (d : DataFrame) (fig : Figure),
    df st = Some d ->
    create_visualization st = (Ret (Some fig), st') ->
    (forall i, i < List.length (rows d) ->
       nth_error (pie_colors fig) i = nth_error COLORS (i mod 10)
       /\ wedge_color fig i = nth_error COLORS (i mod 10))
    /\ (List.length (rows d) = 23 ->
        wedge_color fig 0 = Some "#FF6B6B"
        /\ wedge_color fig 10 = wedge_color fig 0
        /\ wedge_color fig 20 = wedge_color fig 0).
Proof.
  intros st st' d fig Hdf Hfig.
  destruct (create_visualization_shape st st' d fig Hdf Hfig) as (_ & Hshape).
  destruct Hshape as (_ & _ & _ & Hcol).
  assert (Hgen : forall i, i < List.length (rows d) ->
            nth_error (pie_colors fig) i = nth_error COLORS (i mod 10)
            /\ wedge_color fig i = nth_error COLORS (i mod 10)).
  { intros i Hi. unfold wedge_color. rewrite Hcol, chart_colors_length.
    rewrite (Nat.mod_small i (List.length (rows d))) by exact Hi.
    split; apply chart_colors_nth; exact Hi. }
  split; [exact Hgen|].
  intros H23.
  destruct (Hgen 0) as [_ H0]; [lia|].
  destruct (Hgen 10) as [_ H10]; [lia|].
  destruct (Hgen 20) as [_ H20]; [lia|].
  rewrite H0, H10, H20. repeat split; reflexivity.
Qed.

(** C10.  For every record count [n], the palette repeated [n / 10 + 1]
    times has [10 * (n / 10 + 1)] entries, which is at least [n]; its first
    [n] entries are exactly [n] colours, so each of the [n] wedges finds its
    colour inside the list. *)
Theorem colors_cycle_in_bounds :
  forall n : nat,
    List.length (colors_cycle n) = 10 * (n / 10 + 1)
    /\ n <= List.length (colors_cycle n)
    /\ List.length (slice_to n (colors_cycle n)) = n
    /\ (forall i, i < n ->
          exists c, nth_error (slice_to n (colors_cycle n)) i = Some c).
Proof.
  intros n. pose proof (colors_cycle_covers n) as Hc. repeat split.
  - unfold colors_cycle. rewrite length_list_mul, length_COLORS. lia.
  - lia.
  - apply chart_colors_length.
  - intros i Hi.
    destruct (nth_error (slice_to n (colors_cycle n)) i) as [c|] eqn:E.
    + exists c. reflexivity.
    + apply nth_error_None in E. rewrite chart_colors_length in E. lia.
Qed.



(** ** The loader *)

Lemma existsb_excluded {A : Type} (p q : A -> bool) (l : list A) :
  forallb p l = true ->
  (forall x, p x = true -> q x = false) ->
  existsb q l = false.
Proof.
  intros Hall Hpq. induction l as [|x l IH]; simpl; [reflexivity|].
  simpl in Hall. apply andb_prop in Hall. destruct Hall as [Hx Hl].
  rewrite (Hpq x Hx), (IH Hl). reflexivity.
Qed.

Lemma in_int32_bounds (z : Z) :
  in_int32 z = true <-> (- 2 ^ 31 <= z < 2 ^ 31)%Z.
Proof.
  unfold in_int32. rewrite andb_true_iff, Z.leb_le, Z.ltb_lt. tauto.
Qed.

(** An int32 literal raises none of the reader's objections. *)
Lemma storable_unobjectionable (r : csv_row) :
  stock_storable r = true ->
  stock_above_uint64 r = false
  /\ stock_unsigned64 r = false
  /\ stock_below_int64 r = false
  /\ stock_is_na r = false
  /\ stock_out_of_int32 r = false
  /\ stock_is_int r = true.
Proof.
  unfold stock_storable, stock_above_uint64, stock_unsigned64,
    stock_below_int64, stock_is_na, stock_out_of_int32, stock_is_int.
  destruct (cell_Stock r) as [|z]; [discriminate|]. intros H.
  rewrite H. apply in_int32_bounds in H.
  assert (H31 : (2 ^ 31 < 2 ^ 63)%Z) by reflexivity.
  assert (H63 : (2 ^ 63 < 2 ^ 64)%Z) by reflexivity.
  repeat split.
  - apply Z.leb_gt. lia.
  - apply andb_false_iff. left. apply Z.leb_gt. lia.
  - apply Z.ltb_ge. lia.
Qed.

Lemma storable_all_int (body : list csv_row) :
  forallb stock_storable body = true -> forallb stock_is_int body = true.
Proof.
  intros H. rewrite forallb_forall in *. intros r Hr.
  apply storable_unobjectionable. apply H. exact Hr.
Qed.

Lemma mem_filter (x : string) (f : string -> bool) (l : list string) :
  mem x l = true -> f x = true -> mem x (filter f l) = true.
Proof.
  unfold mem. induction l as [|y l IH]; simpl; [discriminate|].
  intros Hx Hf. destruct (String.eqb x y) eqn:E.
  - apply String.eqb_eq in E. subst y. rewrite Hf. simpl.
    rewrite String.eqb_refl. reflexivity.
  - simpl in Hx. destruct (f y); simpl; [rewrite E; simpl|]; apply IH; assumption.
Qed.

Lemma issubset_used_columns (header : list string) :
  issubset REQUIRED_COLUMNS header = true ->
  issubset REQUIRED_COLUMNS
    (filter (fun c => mem c REQUIRED_COLUMNS) header) = true.
Proof.
  unfold issubset. simpl. intros H.
  destruct (mem "Product" header) eqn:Hp; [|discriminate].
  destruct (mem "Stock" header) eqn:Hs; [|discriminate].
  rewrite (mem_filter "Product" _ header Hp eq_refl).
  rewrite (mem_filter "Stock" _ header Hs eq_refl). reflexivity.
Qed.

(** A header with both names and a body of int32 Stock literals is read
    into a frame whose rows are numbered from 0. *)
Lemma read_csv_table (header : list string) (body : list csv_row) :
  issubset REQUIRED_COLUMNS header = true ->
  forallb stock_storable body = true ->
  read_csv (Table header body) =
    Ret (mk_frame (filter (fun c => mem c REQUIRED_COLUMNS) header)
                  (index_rows 0 body)).
Proof.
  intros Hh Hb. unfold read_csv. rewrite Hh. cbn [negb].
  rewrite (existsb_excluded _ stock_above_uint64 body Hb),
    (existsb_excluded _ stock_unsigned64 body Hb),
    (existsb_excluded _ stock_below_int64 body Hb),
    (existsb_excluded _ stock_is_na body Hb),
    (existsb_excluded _ stock_out_of_int32 body Hb);
    try reflexivity; intros r Hr; apply storable_unobjectionable; exact Hr.
Qed.

(** A missing Stock field among int32 literals makes the read raise
    ValueError, however many rows have both fields. *)
Lemma read_csv_stock_na (header : list string) (body : list csv_row) :
  issubset REQUIRED_COLUMNS header = true ->
  forallb (fun r => stock_is_na r || stock_storable r) body = true ->
  existsb stock_is_na body = true ->
  exists msg, read_csv (Table header body) = raise_ ValueError msg.
Proof.
  intros Hh Hb Hna. unfold read_csv. rewrite Hh. cbn [negb].
  assert (Hq : forall q : csv_row -> bool,
             (forall r, stock_is_na r = true -> q r = false) ->
             (forall r, stock_storable r = true -> q r = false) ->
             existsb q body = false).
  { intros q Hn Hs. apply (existsb_excluded _ q body Hb).
    intros r Hr. apply orb_true_iff in Hr. destruct Hr; auto. }
  rewrite (Hq stock_above_uint64), (Hq stock_unsigned64),
    (Hq stock_below_int64), Hna;
    try (intros r Hr; apply storable_unobjectionable; exact Hr);
    try (intros r Hr;
         unfold stock_is_na, stock_above_uint64, stock_unsigned64,
           stock_below_int64 in *;
         destruct (cell_Stock r); [reflexivity|discriminate]).
  eexists. reflexivity.
Qed.

(** The rows [dropna] keeps of a freshly read frame. *)
Lemma kept_rows_length (k : nat) (body : list csv_row) :
  List.length (filter (fun r => negb (has_na r)) (index_rows k body)) =
  List.length (filter has_product body).
Proof.
  revert k. induction body as [|r body IH]; intros k; simpl; [reflexivity|].
  unfold has_na, has_product at 1. simpl.
  destruct (cell_Product r); simpl; rewrite IH; reflexivity.
Qed.

Lemma kept_rows_nil (k : nat) (body : list csv_row) :
  filter (fun r => negb (has_na r)) (index_rows k body) = [] <->
  existsb has_product body = false.
Proof.
  revert k. induction body as [|r body IH]; intros k; simpl; [tauto|].
  unfold has_na, has_product at 1. simpl.
  destruct (cell_Product r); simpl; [split; discriminate|apply IH].
Qed.

Lemma complete_rows_all_int (body : list csv_row) :
  forallb stock_is_int body = true ->
  filter row_complete body = filter has_product body.
Proof.
  induction body as [|r body IH]; simpl; [reflexivity|].
  intros H. apply andb_prop in H. destruct H as [Hr Hb].
  unfold row_complete at 1. rewrite Hr, andb_true_r, (IH Hb). reflexivity.
Qed.

(** The loader on a readable table whose Stock fields are all int32
    literals: rows without a Product go, the others stay with their labels;
    the load succeeds when a row is left and reports "No valid data"
    otherwise. *)
Lemma load_data_integer_stock (w : World) (st : state)
      (header : list string) (body : list csv_row) :
  path_exists w (csv_path st) = true ->
  file_at w (csv_path st) = Table header body ->
  issubset REQUIRED_COLUMNS header = true ->
  forallb stock_storable body = true ->
  let frame :=
    dropna (mk_frame (filter (fun c => mem c REQUIRED_COLUMNS) header)
                     (index_rows 0 body)) in
  load_data w st =
    if existsb has_product body
    then (Ret true, mk_state (csv_path st) (Some frame) (stdout st))
    else (Ret false,
          mk_state (csv_path st) (Some frame)
                   (stdout st ++ ["Error: No valid data found!"])).
Proof.
  intros Hex Hfile Hh Hb frame. unfold load_data. run_py.
  rewrite Hex. simpl. rewrite Hfile, (read_csv_table header body Hh Hb).
  simpl. rewrite (issubset_used_columns header Hh). simpl.
  unfold dropna_inplace. run_py. unfold empty. simpl.
  destruct (existsb has_product body) eqn:E.
  - destruct (filter (fun r => negb (has_na r)) (index_rows 0 body)) eqn:F.
    + apply kept_rows_nil in F. congruence.
    + subst frame. unfold dropna. simpl. rewrite F. reflexivity.
  - apply kept_rows_nil with (k := 0) in E.
    subst frame. unfold dropna. simpl. rewrite E. reflexivity.
Qed.

(** An exception of the read that line 61 does not name leaves [load_data]
    as an exception: the method can raise. *)
Lemma load_data_unreadable_raises (w : World) (st : state) (msg : string) :
  path_exists w (csv_path st) = true ->
  file_at w (csv_path st) = Unreadable msg ->
  load_data w st = (raise_ OSError msg, st).
Proof.
  intros Hex Hfile. unfold load_data. run_py. rewrite Hex. simpl.
  rewrite Hfile. reflexivity.
Qed.

(** A read error named on line 61 is reported and turned into [False]. *)
Lemma load_data_read_error (w : World) (st : state) (e : exn) :
  path_exists w (csv_path st) = true ->
  read_csv (file_at w (csv_path st)) = Raise e ->
  is_read_error e = true ->
  load_data w st = (Ret false, report st ("Error reading CSV: " ++ exn_msg e)).
Proof.
  intros Hex Hread Hcls. unfold load_data. run_py. rewrite Hex. simpl.
  rewrite Hread, Hcls. reflexivity.
Qed.

Lemma load_data_read_error_reported (w : World) (st : state) (e : exn) :
  path_exists w (csv_path st) = true ->
  read_csv (file_at w (csv_path st)) = Raise e ->
  is_read_error e = true ->
  exists msg,
    load_data w st = (Ret false, report st ("Error reading CSV: " ++ msg)).
Proof.
  intros Hex Hread Hcls. exists (exn_msg e).
  apply load_data_read_error; assumption.
Qed.

(** The failures [load_data] turns into [False]: a path that does not
    exist (the file is not read, the frame is left untouched and the outcome
    does not depend on the rest of the world), a header that lacks a required
    column, an empty file, a file the tokenizer rejects. *)
Lemma load_data_reported_failures (w : World) (st : state) :
  (path_exists w (csv_path st) = false ->
     load_data w st =
       (Ret false, report st ("Error: " ++ csv_path st ++ " not found!"))
     /\ forall w', path_exists w' (csv_path st) = false ->
                   load_data w' st = load_data w st)
  /\ (path_exists w (csv_path st) = true ->
      (forall header body,
          file_at w (csv_path st) = Table header body ->
          issubset REQUIRED_COLUMNS header = false ->
          exists msg,
            load_data w st =
              (Ret false, report st ("Error reading CSV: " ++ msg)))
      /\ (file_at w (csv_path st) = EmptyFile ->
          exists msg,
            load_data w st =
              (Ret false, report st ("Error reading CSV: " ++ msg)))
      /\ (forall msg,
             file_at w (csv_path st) = Malformed msg ->
             load_data w st =
               (Ret false, report st ("Error reading CSV: " ++ msg)))).
Proof.
  split.
  - intros Hno.
    assert (Hmiss : forall w0, path_exists w0 (csv_path st) = false ->
              load_data w0 st =
                (Ret false,
                 report st ("Error: " ++ csv_path st ++ " not found!"))).
    { intros w0 H0. unfold load_data. run_py. rewrite H0. reflexivity. }
    split; [apply Hmiss; exact Hno|].
    intros w' Hno'. rewrite (Hmiss w Hno), (Hmiss w' Hno'). reflexivity.
  - intros Hex. repeat split.
    + intros header body Hfile Hcols.
      eapply (load_data_read_error_reported w st _ Hex);
        [rewrite Hfile; unfold read_csv; rewrite Hcols; reflexivity
        |reflexivity].
    + intros Hfile.
      eapply (load_data_read_error_reported w st _ Hex);
        [rewrite Hfile; reflexivity|reflexivity].
    + intros msg Hfile.
      apply (load_data_read_error w st (mk_exn ParserError msg) Hex);
        [|reflexivity].
      rewrite Hfile. reflexivity.
Qed.

(** A Stock value just outside int32 is a read error like the others:
    reported, and turned into [False]. *)
Lemma load_data_out_of_int32_fails :
  load_data (quiet_world (csv [entry "A" 2147483648]) "n") st0
  = (Ret false,
     report st0
       ("Error reading CSV: cannot safely convert passed user dtype of int32 "
          ++ "for int64 dtyped data in column 1")).
Proof. reflexivity. Qed.

(** C5.  The file [A,99999999999999999999] cannot be parsed into the int32
    column asked for, and [load_data] does not answer [False]: the read
    raises OverflowError, which is none of the three classes named on line
    61, so the exception leaves [load_data] with nothing printed and no frame
    stored.  [main] then reports it as an unexpected error and returns 1. *)
Theorem load_data_overlong_stock_raises :
  exists msg,
    read_csv (csv [entry "A" 99999999999999999999])
    = raise_ OverflowError msg
    /\ is_read_error (mk_exn OverflowError msg) = false
    /\ load_data (quiet_world (csv [entry "A" 99999999999999999999]) "n") st0
       = (raise_ OverflowError msg, st0)
    /\ run (quiet_world (csv [entry "A" 99999999999999999999]) "n")
       = (Ret 1%Z, mk_state CSV_FILE None ["Unexpected error: " ++ msg]).
Proof.
  exists "Overflow". repeat split; reflexivity.
Qed.

(** Whenever a Stock field is missing among int32 literals the load fails,
    however many rows have both fields. *)
Lemma load_data_stock_na_fails (w : World) (st : state)
      (header : list string) (body : list csv_row) :
  path_exists w (csv_path st) = true ->
  file_at w (csv_path st) = Table header body ->
  forallb (fun r => stock_is_na r || stock_storable r) body = true ->
  existsb stock_is_na body = true ->
  fst (load_data w st) = Ret false.
Proof.
  intros Hex Hfile Hb Hna.
  destruct (issubset REQUIRED_COLUMNS header) eqn:Hcols.
  - destruct (read_csv_stock_na header body Hcols Hb Hna) as [msg Hread].
    rewrite (load_data_read_error w st (mk_exn ValueError msg) Hex);
      [reflexivity| |reflexivity].
    rewrite Hfile. exact Hread.
  - rewrite (load_data_read_error w st
               (mk_exn ValueError (usecols_message header)) Hex);
      [reflexivity| |reflexivity].
    rewrite Hfile. unfold read_csv. rewrite Hcols. reflexivity.
Qed.

(** With int32 Stock literals throughout, the loaded frame has one row per
    row of the file with both fields present, and the load fails exactly when
    no row is left. *)
Lemma load_data_drops_missing_product (w : World) (st : state)
      (header : list string) (body : list csv_row) :
  path_exists w (csv_path st) = true ->
  file_at w (csv_path st) = Table header body ->
  issubset REQUIRED_COLUMNS header = true ->
  forallb stock_storable body = true ->
  exists d,
    df (snd (load_data w st)) = Some d
    /\ List.length (rows d) = List.length (filter row_complete body)
    /\ (forall r, In r (rows d) -> Product r <> None)
    /\ fst (load_data w st) = Ret (existsb row_complete body).
Proof.
  intros Hex Hfile Hh Hs.
  pose proof (storable_all_int body Hs) as Hb.
  pose proof (load_data_integer_stock w st header body Hex Hfile Hh Hs) as Hrun.
  simpl in Hrun.
  assert (Hsome : existsb row_complete body = existsb has_product body).
  { clear -Hb. induction body as [|r body IH]; simpl; [reflexivity|].
    simpl in Hb. apply andb_prop in Hb. destruct Hb as [Hr Hb].
    unfold row_complete at 1. rewrite Hr, andb_true_r, (IH Hb). reflexivity. }
  eexists. repeat split.
  - rewrite Hrun. destruct (existsb has_product body); reflexivity.
  - unfold dropna. simpl. rewrite kept_rows_length.
    rewrite (complete_rows_all_int body Hb). reflexivity.
  - intros r Hin. unfold dropna in Hin. simpl in Hin.
    apply filter_In in Hin. destruct Hin as [_ Hna].
    unfold has_na in Hna. destruct (Product r); [discriminate|discriminate].
  - rewrite Hrun, Hsome. destruct (existsb has_product body); reflexivity.
Qed.

(** ** The statistics reporter *)

Section Scan.
Variable key : Z -> Z.

(** The scan keeps the first best entry of what it has seen. *)
Lemma arg_best_first (s seen : Series Z) (best : nat * Z) (p : nat) :
  first_best key seen p best ->
  exists p',
    first_best key (seen ++ s)%list p'
      (arg_best (fun v b => (key b <? key v)%Z) best s).
Proof.
  revert seen best p. induction s as [|x s IH]; intros seen best p Hbest.
  - exists p. rewrite app_nil_r. exact Hbest.
  - simpl. destruct Hbest as (Hp & Hall & Hbefore).
    assert (Hplt : p < List.length seen)
      by (apply nth_error_Some; congruence).
    replace (seen ++ x :: s)%list with ((seen ++ [x]) ++ s)%list
      by (rewrite <- app_assoc; reflexivity).
    assert (Hsplit : forall q y, nth_error (seen ++ [x])%list q = Some y ->
              (q < List.length seen /\ nth_error seen q = Some y)
              \/ (q = List.length seen /\ y = x)).
    { intros q y Hq. destruct (Nat.lt_ge_cases q (List.length seen)) as [Hlt|Hge].
      - left. rewrite nth_error_app1 in Hq by exact Hlt. auto.
      - right. rewrite nth_error_app2 in Hq by exact Hge.
        destruct (q - List.length seen) as [|k] eqn:E; simpl in Hq.
        + split; [lia|congruence].
        + destruct k; discriminate. }
    destruct (key (snd best) <? key (snd x))%Z eqn:E.
    + apply Z.ltb_lt in E. apply (IH (seen ++ [x])%list x (List.length seen)).
      repeat split.
      * rewrite nth_error_app2 by lia. rewrite Nat.sub_diag. reflexivity.
      * intros q y Hq. destruct (Hsplit q y Hq) as [[_ Hy]|[_ Hy]].
        -- specialize (Hall q y Hy). lia.
        -- subst y. lia.
      * intros q y Hlt Hq. destruct (Hsplit q y Hq) as [[_ Hy]|[Hq' _]].
        -- specialize (Hall q y Hy). lia.
        -- lia.
    + apply Z.ltb_ge in E. apply (IH (seen ++ [x])%list best p).
      repeat split.
      * rewrite nth_error_app1 by exact Hplt. exact Hp.
      * intros q y Hq. destruct (Hsplit q y Hq) as [[_ Hy]|[_ Hy]].
        -- exact (Hall q y Hy).
        -- subst y. exact E.
      * intros q y Hlt Hq. destruct (Hsplit q y Hq) as [[_ Hy]|[Hq' _]].
        -- exact (Hbefore q y Hlt Hy).
        -- lia.
Qed.

Lemma arg_best_first_of_series (x : nat * Z) (s : Series Z) :
  exists p,
    first_best key (x :: s) p (arg_best (fun v b => (key b <? key v)%Z) x s).
Proof.
  apply (arg_best_first s [x] x 0). repeat split.
  - intros q y Hq. destruct q as [|[|q]]; simpl in Hq; try discriminate.
    injection Hq as <-. lia.
  - intros q y Hlt. lia.
Qed.
End Scan.

Lemma arg_best_ext (f g : Z -> Z -> bool) (best : nat * Z) (s : Series Z) :
  (forall v b, f v b = g v b) -> arg_best f best s = arg_best g best s.
Proof.
  intros Hfg. revert best. induction s as [|x s IH]; intros best; simpl.
  - reflexivity.
  - rewrite Hfg. destruct (g (snd x) (snd best)); apply IH.
Qed.

(** [idxmax] answers the label of the first entry with the largest value,
    [idxmin] the label of the first entry with the smallest one. *)
Lemma idxmax_first (s : Series Z) :
  s <> [] ->
  exists p x, idxmax s = Ret (fst x) /\ first_best (fun z => z) s p x.
Proof.
  destruct s as [|x s]; [congruence|]. intros _.
  destruct (arg_best_first_of_series (fun z => z) x s) as [p Hp].
  exists p. eexists. split; [reflexivity|exact Hp].
Qed.

Lemma idxmin_first (s : Series Z) :
  s <> [] ->
  exists p x, idxmin s = Ret (fst x) /\ first_best Z.opp s p x.
Proof.
  destruct s as [|x s]; [congruence|]. intros _.
  destruct (arg_best_first_of_series Z.opp x s) as [p Hp].
  exists p. eexists. split; [|exact Hp].
  unfold idxmin. f_equal. f_equal. apply arg_best_ext.
  intros v b. destruct (Z.ltb_spec v b), (Z.ltb_spec (- b) (- v)); lia || reflexivity.
Qed.

(** From the Stock column back to the rows of the frame. *)
Lemma first_best_row (key : Z -> Z) (d : DataFrame) (p : nat) (x : nat * Z) :
  first_best key (col_Stock d) p x ->
  exists r,
    x = (row_label r, Stock r)
    /\ nth_error (rows d) p = Some r
    /\ first_extreme key (rows d) r.
Proof.
  unfold col_Stock. intros (Hp & Hall & Hbefore).
  rewrite nth_error_map in Hp.
  destruct (nth_error (rows d) p) as [r|] eqn:Hr; [|discriminate].
  simpl in Hp. injection Hp as <-. exists r.
  split; [reflexivity|]. split; [reflexivity|].
  exists p. split; [exact Hr|]. split.
  - intros q r' Hq.
    apply (Hall q (row_label r', Stock r')).
    rewrite nth_error_map, Hq. reflexivity.
  - intros q r' Hlt Hq.
    apply (Hbefore q (row_label r', Stock r') Hlt).
    rewrite nth_error_map, Hq. reflexivity.
Qed.

(** What [print_statistics] does on any loaded, non-empty frame.  The label
    of the first largest (smallest) row is used as a position: the row
    reported is the one found there, and the lookup raises IndexError when
    the label is past the end. *)
Lemma print_statistics_reports (st : state) (d : DataFrame) :
  df st = Some d ->
  rows d <> [] ->
  exists rmax rmin,
    first_extreme (fun z => z) (rows d) rmax
    /\ first_extreme Z.opp (rows d) rmin
    /\ print_statistics st =
         match nth_error (rows d) (row_label rmax) with
         | None => (out_of_bounds, printed st (stats_header d))
         | Some hi =>
             match nth_error (rows d) (row_label rmin) with
             | None =>
                 (out_of_bounds,
                  printed st (stats_header d ++ [extreme_line "Highest: " hi]))
             | Some lo =>
                 (Ret tt,
                  printed st (stats_header d
                                ++ [extreme_line "Highest: " hi;
                                    extreme_line "Lowest: " lo]))
             end
         end.
Proof.
  intros Hdf Hne.
  assert (Hs : col_Stock d <> []).
  { unfold col_Stock. destruct (rows d); [congruence|discriminate]. }
  destruct (idxmax_first (col_Stock d) Hs) as (pmax & xmax & Hmax & Hbmax).
  destruct (idxmin_first (col_Stock d) Hs) as (pmin & xmin & Hmin & Hbmin).
  destruct (first_best_row _ d pmax xmax Hbmax) as (rmax & -> & _ & Hfmax).
  destruct (first_best_row _ d pmin xmin Hbmin) as (rmin & -> & _ & Hfmin).
  exists rmax, rmin. split; [exact Hfmax|]. split; [exact Hfmin|].
  unfold print_statistics, bind, get, lift, print.
  cbn [fst snd df csv_path stdout]. rewrite Hdf, Hmax, Hmin.
  cbn [fst snd df csv_path stdout]. unfold iloc.
  rewrite values_col_Product, values_col_Stock, !nth_error_map.
  unfold printed, stats_header, extreme_line, out_of_bounds.
  destruct (nth_error (rows d) (row_label rmax)) as [hi|];
    cbn [option_map fst snd df csv_path stdout];
    [|repeat rewrite <- app_assoc; reflexivity].
  destruct (nth_error (rows d) (row_label rmin)) as [lo|];
    cbn [option_map fst snd df csv_path stdout];
    repeat rewrite <- app_assoc; reflexivity.
Qed.

(** On a frame from which nothing was dropped the two rows reported are the
    first largest and the first smallest, and nothing is raised. *)
Lemma print_statistics_positional (st : state) (d : DataFrame) :
  df st = Some d ->
  rows d <> [] ->
  positional d ->
  exists rmax rmin,
    first_extreme (fun z => z) (rows d) rmax
    /\ first_extreme Z.opp (rows d) rmin
    /\ print_statistics st =
         (Ret tt,
          printed st (stats_header d
                        ++ [extreme_line "Highest: " rmax;
                            extreme_line "Lowest: " rmin])).
Proof.
  intros Hdf Hne Hpos.
  destruct (print_statistics_reports st d Hdf Hne)
    as (rmax & rmin & Hfmax & Hfmin & Hrun).
  exists rmax, rmin. split; [exact Hfmax|]. split; [exact Hfmin|].
  destruct Hfmax as (pmax & Hpmax & _). destruct Hfmin as (pmin & Hpmin & _).
  rewrite (Hpos pmax rmax Hpmax), Hpmax in Hrun.
  rewrite (Hpos pmin rmin Hpmin), Hpmin in Hrun. exact Hrun.
Qed.

Lemma index_rows_nth (body : list csv_row) (k p : nat) (r : frame_row) :
  nth_error (index_rows k body) p = Some r -> row_label r = k + p.
Proof.
  revert k p. induction body as [|c body IH]; intros k p H.
  - destruct p; discriminate.
  - destruct p as [|p]; simpl in H.
    + injection H as <-. simpl. lia.
    + apply IH in H. lia.
Qed.

(** A frame read from a file in which every row has a Product is
    positional after [dropna]. *)
Lemma positional_complete (cols : list string) (body : list csv_row) :
  forallb has_product body = true ->
  positional (dropna (mk_frame cols (index_rows 0 body))).
Proof.
  intros Hall p r. unfold dropna. simpl.
  assert (Hkeep : forall k,
            filter (fun r => negb (has_na r)) (index_rows k body)
            = index_rows k body).
  { clear p r. induction body as [|c body IH]; intros k; simpl; [reflexivity|].
    simpl in Hall. apply andb_prop in Hall. destruct Hall as [Hc Hall].
    unfold has_na at 1. simpl. unfold has_product in Hc.
    destruct (cell_Product c); [|discriminate]. simpl.
    rewrite (IH Hall). reflexivity. }
  rewrite Hkeep. intros H. apply index_rows_nth in H. exact H.
Qed.

(** ** Persistence *)

Lemma save_chart_result (w : World) (fig : Figure) (filename : string)
      (st : state) :
  save_chart w fig filename st =
    match savefig_outcome w filename with
    | Ret _ => (Ret true, printed st ["Chart saved: " ++ filename])
    | Raise e =>
        if is_Exception e
        then (Ret false, printed st ["Save error: " ++ exn_msg e])
        else (Raise e, st)
    end.
Proof.
  unfold save_chart, try_except, bind, lift, print, ret, printed.
  destruct (savefig_outcome w filename) as [[]|e]; [reflexivity|].
  destruct (is_Exception e); reflexivity.
Qed.

(** C8.  [save_chart] on a write that succeeds prints "Chart saved: " with
    the file name it was given and answers [True]; on a write that fails with
    an error (any exception deriving from Exception, OSError among them) it
    prints "Save error: " with the message of that error and answers
    [False]: the error is not passed on to the caller. *)
Theorem save_chart_never_propagates :
  forall (w : World) (fig : Figure) (filename : string) (st : state),
    (savefig_outcome w filename = Ret tt ->
       save_chart w fig filename st =
         (Ret true, printed st ["Chart saved: " ++ filename]))
    /\ (forall e, savefig_outcome w filename = Raise e ->
          is_Exception e = true ->
          save_chart w fig filename st =
            (Ret false, printed st ["Save error: " ++ exn_msg e]))
    /\ (forall msg, savefig_outcome w filename = raise_ OSError msg ->
          save_chart w fig filename st =
            (Ret false, printed st ["Save error: " ++ msg])).
Proof.
  intros w fig filename st. repeat split.
  - intros H. rewrite save_chart_result, H. reflexivity.
  - intros e H He. rewrite save_chart_result, H, He. reflexivity.
  - intros msg H. rewrite save_chart_result, H. reflexivity.
Qed.

(** ** The entry point *)

Lemma main_body_unfold (w : World) (st : state) :
  main_body w st =
    match load_data w st with
    | (Raise e, st1) => (Raise e, st1)
    | (Ret false, st1) => (Ret 1%Z, st1)
    | (Ret true, st1) =>
        match create_visualization st1 with
        | (Raise e, st2) => (Raise e, st2)
        | (Ret None, st2) =>
            (Ret 1%Z, printed st2 ["Failed to create visualization"])
        | (Ret (Some fig), st2) =>
            match print_statistics st2 with
            | (Raise e, st3) => (Raise e, st3)
            | (Ret _, st3) =>
                match show_outcome w with
                | Raise e => (Raise e, st3)
                | Ret _ =>
                    match input_outcome w with
                    | Raise e => (Raise e, printed st3 [save_prompt])
                    | Ret answer =>
                        if String.eqb (lower answer) "y" then
                          match save_chart w fig "stock_chart.png"
                                  (printed st3 [save_prompt]) with
                          | (Ret _, st5) => (Ret 0%Z, st5)
                          | (Raise e, st5) => (Raise e, st5)
                          end
                        else (Ret 0%Z, printed st3 [save_prompt])
                    end
                end
            end
        end
    end.
Proof.
  unfold main_body, main_body_of, show, input, bind, lift, print, ret,
    printed, save_prompt.
  cbn [StockVisualizer v_load_data v_create_visualization v_print_statistics
       v_save_chart].
  destruct (load_data w st) as [[[|]|e] st1];
    cbn [negb]; cbv beta iota; try reflexivity.
  destruct (create_visualization st1) as [[[fig|]|e] st2];
    cbv beta iota; try reflexivity.
  destruct (print_statistics st2) as [[[]|e] st3];
    cbv beta iota; try reflexivity.
  destruct (show_outcome w) as [[]|e]; cbv beta iota; try reflexivity.
  destruct (input_outcome w) as [answer|e]; cbv beta iota; try reflexivity.
  destruct (String.eqb (lower answer) "y"); cbv beta iota; try reflexivity.
  destruct (save_chart w fig "stock_chart.png" _) as [[b|e] st5]; reflexivity.
Qed.

Lemma cleanup_returns (st : state) : fst (cleanup st) = Ret tt.
Proof.
  unfold cleanup, bind, get, set_df, ret. destruct (df st); reflexivity.
Qed.

Lemma cleanup_cleaned (st : state) : cleanup st = (Ret tt, cleaned st).
Proof.
  unfold cleanup, bind, get, set_df, ret, cleaned.
  destruct st as [path [d|] out]; reflexivity.
Qed.

(** The second test of [main] (lines 178-180), for any visualizer whose
    load answers [True] and whose chart comes back null: the failure line is
    printed and 1 returned, after which [cleanup] runs. *)
Lemma main_of_null_figure (load : M bool) (render : M (option Figure))
      (stats : M unit) (save : Figure -> string -> M bool) (w : World)
      (st st1 st2 : state) :
  load st = (Ret true, st1) ->
  render st1 = (Ret None, st2) ->
  main_of (mk_visualizer load render stats save cleanup) w st
  = (Ret 1%Z, cleaned (printed st2 ["Failed to create visualization"])).
Proof.
  intros Hl Hr.
  unfold main_of, try_finally, try_except, main_body_of, bind.
  cbn [v_load_data v_create_visualization v_cleanup].
  rewrite Hl. cbn [negb]. rewrite Hr.
  unfold print, ret. rewrite cleanup_cleaned. reflexivity.
Qed.

Lemma run_exit_of (w : World) :
  fst (run w) = exit_of (fst (main_body w st0)).
Proof.
  unfold run, main, main_of, try_finally, try_except.
  cbn [StockVisualizer v_cleanup]. fold (main_body w). fold st0.
  destruct (main_body w st0) as [[z|e] st1]; simpl.
  - pose proof (cleanup_returns st1) as Hc.
    destruct (cleanup st1) as [[[]|e] st2]; simpl in *; [reflexivity|discriminate].
  - unfold is_KeyboardInterrupt, is_Exception.
    destruct (exn_cls e); simpl; unfold bind, print, ret; simpl;
      match goal with
      | |- context [cleanup ?s] =>
          pose proof (cleanup_returns s) as Hc;
          destruct (cleanup s) as [[[]|e'] st2]; simpl in *;
          [reflexivity|discriminate]
      end.
Qed.

(** A load that answers [True] leaves a frame with at least one row and no
    missing Product. *)
Lemma load_data_true_frame (w : World) (st st1 : state) :
  load_data w st = (Ret true, st1) ->
  exists d,
    df st1 = Some d
    /\ rows d <> []
    /\ forall r, In r (rows d) -> Product r <> None.
Proof.
  unfold load_data, try_except, bind, get, lift, print, ret, set_df.
  cbv beta iota.
  destruct (path_exists w (csv_path st)); cbn [negb]; [|discriminate].
  destruct (read_csv (file_at w (csv_path st))) as [frame|e].
  - cbn [fst snd df csv_path stdout].
    destruct (issubset REQUIRED_COLUMNS (columns frame));
      cbn [negb]; [|discriminate].
    unfold dropna_inplace, bind, get, set_df. cbn [fst snd df csv_path stdout].
    unfold empty, dropna. cbn [rows].
    destruct (filter (fun r => negb (has_na r)) (rows frame)) as [|r l] eqn:F;
      [discriminate|].
    intros H. injection H as <-. eexists. split; [reflexivity|].
    cbn [rows]. split; [discriminate|].
    intros r' Hin. rewrite <- F in Hin. apply filter_In in Hin.
    destruct Hin as [_ Hna]. unfold has_na in Hna.
    destruct (Product r'); discriminate.
  - destruct (is_read_error e); discriminate.
Qed.

(** After a load that answered [True] the figure is never null: the second
    test of [main] cannot fire. *)
Lemma render_failure_unreachable (w : World) : ~ render_failure w.
Proof.
  intros (st1 & st2 & Hload & Hfig).
  destruct (load_data_true_frame w st0 st1 Hload) as (d & Hdf & _).
  apply (create_visualization_not_none st1 d Hdf). rewrite Hfig. reflexivity.
Qed.

(** Every Stock value of a frame read from a file is an int32 value. *)
Lemma read_csv_int32 (f : csv_file) (frame : DataFrame) :
  read_csv f = Ret frame ->
  forall r, In r (rows frame) -> in_int32 (Stock r) = true.
Proof.
  destruct f as [| | |header body]; try discriminate. unfold read_csv.
  destruct (negb (issubset REQUIRED_COLUMNS header)); [discriminate|].
  destruct (existsb stock_above_uint64 body); [discriminate|].
  destruct (existsb stock_unsigned64 body); [discriminate|].
  destruct (existsb stock_below_int64 body); [discriminate|].
  destruct (existsb stock_is_na body) eqn:Hna; [discriminate|].
  destruct (existsb stock_out_of_int32 body) eqn:Hout; [discriminate|].
  intros H. injection H as <-. cbn [rows].
  assert (Hall : forall c, In c body -> in_int32 (stock_value (cell_Stock c)) = true).
  { intros c Hc.
    assert (Hn : stock_is_na c = false).
    { destruct (stock_is_na c) eqn:E; [|reflexivity].
      assert (existsb stock_is_na body = true)
        by (apply existsb_exists; exists c; split; assumption).
      congruence. }
    assert (Ho : stock_out_of_int32 c = false).
    { destruct (stock_out_of_int32 c) eqn:E; [|reflexivity].
      assert (existsb stock_out_of_int32 body = true)
        by (apply existsb_exists; exists c; split; assumption).
      congruence. }
    unfold stock_is_na, stock_out_of_int32 in *.
    destruct (cell_Stock c) as [|z]; [discriminate|]. simpl.
    destruct (in_int32 z); [reflexivity|discriminate]. }
  clear Hna Hout. generalize 0 as k.
  induction body as [|c body IH]; intros k r Hin; simpl in Hin;
    [contradiction|].
  destruct Hin as [<-|Hin].
  - simpl. apply Hall. left. reflexivity.
  - apply (IH (fun c' Hc' => Hall c' (or_intror Hc')) (S k) r Hin).
Qed.

(** A load that answers [True] leaves a frame of int32 values. *)
Lemma load_data_true_int32 (w : World) (st st1 : state) :
  load_data w st = (Ret true, st1) ->
  exists d,
    df st1 = Some d
    /\ forall r, In r (rows d) -> in_int32 (Stock r) = true.
Proof.
  unfold load_data, try_except, bind, get, lift, print, ret, set_df.
  cbv beta iota.
  destruct (path_exists w (csv_path st)); cbn [negb]; [|discriminate].
  destruct (read_csv (file_at w (csv_path st))) as [frame|e] eqn:Hread.
  - cbn [fst snd df csv_path stdout].
    destruct (issubset REQUIRED_COLUMNS (columns frame));
      cbn [negb]; [|discriminate].
    unfold dropna_inplace, bind, get, set_df. cbn [fst snd df csv_path stdout].
    unfold empty, dropna. cbn [rows].
    destruct (filter (fun r => negb (has_na r)) (rows frame)) as [|r l] eqn:F;
      [discriminate|].
    intros H. injection H as <-. eexists. split; [reflexivity|].
    cbn [rows]. intros r' Hin. rewrite <- F in Hin. apply filter_In in Hin.
    destruct Hin as [Hin _]. exact (read_csv_int32 _ frame Hread r' Hin).
  - destruct (is_read_error e); discriminate.
Qed.

Lemma main_body_succeeds (w : World) :
  pipeline_succeeds w -> fst (main_body w st0) = Ret 0%Z.
Proof.
  intros (fig & st & answer & Hasked & Hsave).
  destruct Hasked as [[[st2 [[st1 [Hl Hc]] Hp]] Hs] Hi].
  rewrite main_body_unfold, Hl, Hc, Hp, Hs, Hi.
  destruct (String.eqb (lower answer) "y") eqn:E; [|reflexivity].
  apply String.eqb_eq in E. rewrite save_chart_result.
  destruct (savefig_outcome w "stock_chart.png") as [[]|e] eqn:Hsv;
    [reflexivity|].
  rewrite (Hsave E e eq_refl). reflexivity.
Qed.

Lemma main_body_load_failure (w : World) :
  load_failure w -> fst (main_body w st0) = Ret 1%Z.
Proof.
  unfold load_failure. intros H. rewrite main_body_unfold.
  destruct (load_data w st0) as [[[|]|e] st1]; simpl in H;
    try discriminate. reflexivity.
Qed.

Lemma main_body_render_failure (w : World) :
  render_failure w -> fst (main_body w st0) = Ret 1%Z.
Proof.
  intros (st1 & st2 & Hl & Hc). rewrite main_body_unfold, Hl, Hc. reflexivity.
Qed.

Lemma main_body_escapes (w : World) (e : exn) :
  escapes w e -> fst (main_body w st0) = Raise e.
Proof.
  intros [H|[H|[H|[H|[H|H]]]]]; rewrite main_body_unfold.
  - destruct (load_data w st0) as [[[|]|e'] st1]; simpl in H;
      try discriminate. injection H as ->. reflexivity.
  - destruct H as (st1 & Hl & Hc). rewrite Hl.
    destruct (create_visualization st1) as [[[fig|]|e'] st2]; simpl in Hc;
      try discriminate. injection Hc as ->. reflexivity.
  - destruct H as (fig & st & (st1 & Hl & Hc) & Hp). rewrite Hl, Hc.
    destruct (print_statistics st) as [[[]|e'] st3]; simpl in Hp;
      try discriminate. injection Hp as ->. reflexivity.
  - destruct H as (fig & st & (st2 & (st1 & Hl & Hc) & Hp) & Hs).
    rewrite Hl, Hc, Hp, Hs. reflexivity.
  - destruct H as (fig & st & ((st2 & (st1 & Hl & Hc) & Hp) & Hs) & Hi).
    rewrite Hl, Hc, Hp, Hs, Hi. reflexivity.
  - destruct H as (fig & st & answer & Hasked & Hy & Hsv & He).
    destruct Hasked as [[[st2 [[st1 [Hl Hc]] Hp]] Hs] Hi].
    rewrite Hl, Hc, Hp, Hs, Hi, Hy. simpl String.eqb. cbv iota.
    rewrite save_chart_result, Hsv, He. reflexivity.
Qed.

(** Every run is of one of the four kinds. *)
Lemma pipeline_cases (w : World) :
  pipeline_succeeds w \/ load_failure w \/ render_failure w
  \/ exists e, escapes w e.
Proof.
  unfold load_failure.
  destruct (load_data w st0) as [[[|]|e] st1] eqn:Hl; simpl;
    [|right; left; reflexivity
     |right; right; right; exists e; left; rewrite Hl; reflexivity].
  destruct (create_visualization st1) as [[[fig|]|e] st2] eqn:Hc.
  - assert (Hr : rendered w fig st2) by (exists st1; split; assumption).
    destruct (print_statistics st2) as [[[]|e] st3] eqn:Hp;
      [|right; right; right; exists e; right; right; left; exists fig, st2;
        split; [exact Hr|rewrite Hp; reflexivity]].
    assert (Hrep : reported w fig st3) by (exists st2; split; assumption).
    destruct (show_outcome w) as [[]|e] eqn:Hs;
      [|right; right; right; exists e; right; right; right; left;
        exists fig, st3; split; assumption].
    assert (Hsh : shown w fig st3) by (split; assumption).
    destruct (input_outcome w) as [answer|e] eqn:Hi;
      [|right; right; right; exists e; right; right; right; right; left;
        exists fig, st3; split; assumption].
    assert (Hask : asked w fig st3 answer) by (split; assumption).
    destruct (String.eqb (lower answer) "y") eqn:Hy.
    + apply String.eqb_eq in Hy.
      destruct (savefig_outcome w "stock_chart.png") as [[]|e] eqn:Hsv.
      * left. exists fig, st3, answer. split; [exact Hask|].
        intros _ e He. congruence.
      * destruct (is_Exception e) eqn:He.
        -- left. exists fig, st3, answer. split; [exact Hask|].
           intros _ e' He'. congruence.
        -- right; right; right. exists e. right; right; right; right; right.
           exists fig, st3, answer. repeat split; assumption.
    + left. exists fig, st3, answer. split; [exact Hask|].
      intros Hy'. rewrite Hy', String.eqb_refl in Hy. discriminate.
  - right; right; left. exists st1, st2. split; [exact Hl|exact Hc].
  - right; right; right. exists e. right; left. exists st1.
    split; [exact Hl|rewrite Hc; reflexivity].
Qed.

(** C9.  [main] returns 0 exactly when the whole pipeline goes through
    (load, chart, statistics, window, question, and the save if asked for,
    whose own errors [save_chart] absorbs), and returns 1 exactly when the
    load fails, the figure is null, the user interrupts (KeyboardInterrupt
    leaves a step) or an unexpected error (an Exception) leaves a step, the
    ValueError of the chart call on a negative Stock among them.  The branch
    for a null figure is stated for every visualizer object: whenever the
    load answers [True] and the chart comes back null, [main] prints the
    failure line and returns 1. *)
Theorem main_exit_status :
  forall w : World,
    (fst (run w) = Ret 0%Z <-> pipeline_succeeds w)
    /\ (fst (run w) = Ret 1%Z <-> pipeline_failure w)
    /\ (forall (load : M bool) (render : M (option Figure))
               (st1 st2 : state),
          load st0 = (Ret true, st1) ->
          render st1 = (Ret None, st2) ->
          main_of (mk_visualizer load render print_statistics (save_chart w)
                     cleanup) w st0
          = (Ret 1%Z,
             cleaned (printed st2 ["Failed to create visualization"]))).
Proof.
  intros w. rewrite run_exit_of.
  assert (Hesc : forall e, escapes w e ->
            exit_of (fst (main_body w st0)) =
              if is_KeyboardInterrupt e || is_Exception e
              then Ret 1%Z else Raise e).
  { intros e He. rewrite (main_body_escapes w e He). reflexivity. }
  split; [split|split; [split|]].
  - intros H0.
    destruct (pipeline_cases w) as [Hs|[Hf|[Hf|[e He]]]]; [exact Hs| | |].
    + rewrite (main_body_load_failure w Hf) in H0. discriminate.
    + rewrite (main_body_render_failure w Hf) in H0. discriminate.
    + rewrite (Hesc e He) in H0.
      destruct (is_KeyboardInterrupt e || is_Exception e); discriminate.
  - intros Hs. rewrite (main_body_succeeds w Hs). reflexivity.
  - intros H1. unfold pipeline_failure.
    destruct (pipeline_cases w) as [Hs|[Hf|[Hf|[e He]]]].
    + rewrite (main_body_succeeds w Hs) in H1. discriminate.
    + left. exact Hf.
    + right; left. exact Hf.
    + rewrite (Hesc e He) in H1.
      destruct (is_KeyboardInterrupt e) eqn:Hk.
      * right; right; left. exists e. split; assumption.
      * destruct (is_Exception e) eqn:Hx; simpl in H1; [|discriminate].
        right; right; right. exists e. split; assumption.
  - intros [Hf|[Hf|[(e & He & Hk)|(e & He & Hx)]]].
    + rewrite (main_body_load_failure w Hf). reflexivity.
    + rewrite (main_body_render_failure w Hf). reflexivity.
    + rewrite (Hesc e He), Hk. reflexivity.
    + rewrite (Hesc e He), Hx, orb_true_r. reflexivity.
  - intros load render st1 st2 Hl Hr.
    apply (main_of_null_figure load render _ _ w st0 st1 st2 Hl Hr).
Qed.

(** ** Runs on concrete files *)

(** C1.  The file [,7 / A,20 / B,10 / C,20] loads into the records A, B, C,
    which keep the labels 1, 2, 3 of their lines.  In dataset order the first
    record with the largest Stock is A (20) and the first with the smallest
    is B (10); [print_statistics] looks the labels 1 and 2 up as positions and
    prints "Highest: B (10 units)" and "Lowest: C (20 units)". *)
Theorem print_statistics_dropped_row_misreports :
  exists st d,
    load_data
      (quiet_world (csv [unnamed 7; entry "A" 20; entry "B" 10; entry "C" 20])
                   "n") st0
      = (Ret true, st)
    /\ df st = Some d
    /\ rows d = [mk_row 1 (Some "A") 20; mk_row 2 (Some "B") 10;
                 mk_row 3 (Some "C") 20]
    /\ first_extreme (fun z => z) (rows d) (mk_row 1 (Some "A") 20)
    /\ first_extreme Z.opp (rows d) (mk_row 2 (Some "B") 10)
    /\ print_statistics st =
         (Ret tt,
          printed st [newline ++ rule; "STOCK ANALYSIS"; rule;
                      "Total Stock: 50 units"; "Products: 3";
                      "Average Stock: 16.7 units";
                      "Highest: B (10 units)"; "Lowest: C (20 units)"]).
Proof.
  eexists. eexists. split; [reflexivity|]. split; [reflexivity|].
  split; [reflexivity|]. split; [|split].
  - exists 0. split; [reflexivity|]. split.
    + intros q r' H.
      do 3 (destruct q as [|q]; [injection H as <-; simpl; lia|]).
      destruct q; discriminate.
    + intros q r' Hq. lia.
  - exists 1. split; [reflexivity|]. split.
    + intros q r' H.
      do 3 (destruct q as [|q]; [injection H as <-; simpl; lia|]).
      destruct q; discriminate.
    + intros [|q] r' Hq H; [|lia]. simpl in H. injection H as <-. simpl. lia.
  - vm_compute. reflexivity.
Qed.

(** C4.  The file [A, / B,3] has one line with both fields present, yet
    [load_data] answers [False]: the missing Stock field of the first line
    makes the read raise ValueError, which is reported as a read error, and
    no frame is stored. *)
Theorem load_data_missing_stock_aborts :
  List.length (filter row_complete [uncounted "A"; entry "B" 3]) = 1
  /\ load_data (quiet_world (csv [uncounted "A"; entry "B" 3]) "n") st0
     = (Ret false,
        report st0
          "Error reading CSV: Integer column has NA values in column 1").
Proof. split; reflexivity. Qed.

(** On a frame with Stock 10, 20, 5 whose rows carry the labels 0, 1, 2 the
    report is the one expected, whatever the products are called. *)
Lemma print_statistics_10_20_5 (cols : list string) (p1 p2 p3 : option string)
      (path : string) (out : list string) :
  let st :=
    mk_state path
      (Some (mk_frame cols [mk_row 0 p1 10; mk_row 1 p2 20; mk_row 2 p3 5]))
      out in
  print_statistics st =
    (Ret tt,
     printed st [newline ++ rule; "STOCK ANALYSIS"; rule;
                 "Total Stock: 35 units"; "Products: 3";
                 "Average Stock: 11.7 units";
                 "Highest: " ++ str_of_product p2 ++ " (20 units)";
                 "Lowest: " ++ str_of_product p3 ++ " (5 units)"]).
Proof.
  intros st. subst st. unfold print_statistics, bind, get, lift, print, printed.
  simpl. repeat rewrite <- app_assoc. reflexivity.
Qed.

(** C6.  The file [,1 / A,10 / B,20 / C,5] loads into a dataset with Stock
    10, 20, 5 under the labels 1, 2, 3.  [print_statistics] prints total 35
    and average 11.7, then "Highest: C (5 units)" (label 2 read as a
    position), and the lookup of the lowest record (label 3) raises
    IndexError before a "Lowest" line is printed. *)
Theorem print_statistics_10_20_5_after_drop :
  exists st d,
    load_data
      (quiet_world (csv [unnamed 1; entry "A" 10; entry "B" 20; entry "C" 5])
                   "n") st0
      = (Ret true, st)
    /\ df st = Some d
    /\ map Stock (rows d) = [10; 20; 5]%Z
    /\ map row_label (rows d) = [1; 2; 3]
    /\ print_statistics st =
         (out_of_bounds,
          printed st [newline ++ rule; "STOCK ANALYSIS"; rule;
                      "Total Stock: 35 units"; "Products: 3";
                      "Average Stock: 11.7 units";
                      "Highest: C (5 units)"]).
Proof.
  eexists. eexists. split; [reflexivity|]. split; [reflexivity|].
  split; [reflexivity|]. split; [reflexivity|]. vm_compute. reflexivity.
Qed.

(** A frame at the boundary: Stock 30 is not exploded, Stock 29 is. *)
Lemma explode_offset_threshold_witness :
  exists fig,
    create_visualization boundary_state = (Ret (Some fig), boundary_state)
    /\ nth_error (pie_explode fig) 0 = Some 0%float
    /\ nth_error (pie_explode fig) 1 = Some 0.05%float.
Proof.
  eexists. split; [reflexivity|]. split.
  - apply (explode_offset_threshold boundary_state boundary_state
             (mk_frame REQUIRED_COLUMNS
                [mk_row 0 (Some "A") 30; mk_row 1 (Some "B") 29])
             _ 0 (mk_row 0 (Some "A") 30) eq_refl eq_refl eq_refl).
    reflexivity.
  - apply (explode_offset_threshold boundary_state boundary_state
             (mk_frame REQUIRED_COLUMNS
                [mk_row 0 (Some "A") 30; mk_row 1 (Some "B") 29])
             _ 1 (mk_row 1 (Some "B") 29) eq_refl eq_refl eq_refl).
    reflexivity.
Defined.

(** Twenty-three records: wedges 1, 11 and 21 are drawn in the first colour
    of the palette, and the last one in the third. *)
Lemma color_assignment_cycles_witness :
  exists fig,
    create_visualization state23 = (Ret (Some fig), state23)
    /\ wedge_color fig 0 = Some "#FF6B6B"
    /\ wedge_color fig 10 = wedge_color fig 0
    /\ wedge_color fig 20 = wedge_color fig 0
    /\ nth_error (pie_colors fig) 22 = nth_error COLORS (22 mod 10).
Proof.
  eexists. split; [reflexivity|].
  pose proof (color_assignment_cycles state23 state23 frame23 _
                eq_refl eq_refl) as [Hall H23].
  destruct (H23 eq_refl) as (H0 & H10 & H20).
  split; [exact H0|]. split; [exact H10|]. split; [exact H20|].
  apply (Hall 22). simpl. lia.
Defined.

(** Three complete lines, the save declined: exit status 0, nothing saved. *)
Example run_three_rows_declined :
  run (quiet_world (csv [entry "A" 10; entry "B" 20; entry "C" 5]) "n")
  = (Ret 0%Z,
     mk_state CSV_FILE None
       [newline ++ rule; "STOCK ANALYSIS"; rule;
        "Total Stock: 35 units"; "Products: 3"; "Average Stock: 11.7 units";
        "Highest: B (20 units)"; "Lowest: C (5 units)"; save_prompt]).
Proof. vm_compute. reflexivity. Qed.

(** The save is asked for and the write fails: the error is reported and
    the exit status is still 0. *)
Example run_save_fails :
  run (mk_world (fun _ => true) (fun _ => csv [entry "A" 10]) (Ret tt)
         (Ret "Y") (fun _ => raise_ OSError "Permission denied"))
  = (Ret 0%Z,
     mk_state CSV_FILE None
       [newline ++ rule; "STOCK ANALYSIS"; rule;
        "Total Stock: 10 units"; "Products: 1"; "Average Stock: 10.0 units";
        "Highest: A (10 units)"; "Lowest: A (10 units)"; save_prompt;
        "Save error: Permission denied"]).
Proof. vm_compute. reflexivity. Qed.

(** Ctrl-C at the prompt: exit status 1. *)
Example run_interrupted :
  fst (run (mk_world (fun _ => true) (fun _ => csv [entry "A" 10]) (Ret tt)
              (raise_ KeyboardInterrupt "") (fun _ => Ret tt)))
  = Ret 1%Z.
Proof. vm_compute. reflexivity. Qed.

(** No file: exit status 1 after the "not found" line. *)
Example run_missing_file :
  run (mk_world (fun _ => false) (fun _ => EmptyFile) (Ret tt) (Ret "n")
         (fun _ => Ret tt))
  = (Ret 1%Z,
     mk_state CSV_FILE None ["Error: product_stock.csv not found!"]).
Proof. vm_compute. reflexivity. Qed.

(** A dropped line can push a label past the end: the IndexError of the
    report is caught by [main] as an unexpected error, exit status 1. *)
Example run_dropped_row_exit :
  fst (run (quiet_world
              (csv [unnamed 1; entry "A" 10; entry "B" 20; entry "C" 5]) "n"))
  = Ret 1%Z.
Proof. vm_compute. reflexivity. Qed.

(** ** The theorems at work on concrete worlds *)

(** No file at the path; a header without the Stock column; an empty file;
    a file the tokenizer rejects: [False] each time. *)
Example load_data_reported_failures_examples :
  load_data (mk_world (fun _ => false) (fun _ => csv [entry "A" 1]) (Ret tt)
               (Ret "n") (fun _ => Ret tt)) st0
  = (Ret false, report st0 "Error: product_stock.csv not found!")
  /\ (exists msg,
         load_data (quiet_world (Table ["Product"; "Price"] []) "n") st0
         = (Ret false, report st0 ("Error reading CSV: " ++ msg)))
  /\ (exists msg,
         load_data (quiet_world EmptyFile "n") st0
         = (Ret false, report st0 ("Error reading CSV: " ++ msg)))
  /\ load_data (quiet_world (Malformed "Error tokenizing data") "n") st0
     = (Ret false, report st0 "Error reading CSV: Error tokenizing data").
Proof.
  split; [|split; [|split]].
  - destruct (proj1 (load_data_reported_failures
                       (mk_world (fun _ => false) (fun _ => csv [entry "A" 1])
                          (Ret tt) (Ret "n") (fun _ => Ret tt)) st0)
                eq_refl) as (Hmissing & _).
    exact Hmissing.
  - destruct (proj2 (load_data_reported_failures
                       (quiet_world (Table ["Product"; "Price"] []) "n") st0)
                eq_refl) as (Hcolumn & _).
    apply (Hcolumn ["Product"; "Price"] []); reflexivity.
  - destruct (proj2 (load_data_reported_failures
                       (quiet_world EmptyFile "n") st0) eq_refl)
      as (_ & Hempty & _).
    apply Hempty. reflexivity.
  - destruct (proj2 (load_data_reported_failures
                       (quiet_world (Malformed "Error tokenizing data") "n")
                       st0) eq_refl)
      as (_ & _ & Hmalformed).
    apply Hmalformed. reflexivity.
Qed.


(** A write that succeeds and one that is refused. *)
Lemma save_chart_never_propagates_witness :
  save_chart (quiet_world EmptyFile "y") boundary_figure "out/chart.png" st0
  = (Ret true, printed st0 ["Chart saved: out/chart.png"])
  /\ save_chart
       (mk_world (fun _ => true) (fun _ => EmptyFile) (Ret tt) (Ret "y")
          (fun _ => raise_ OSError "Permission denied"))
       boundary_figure "/chart.png" st0
     = (Ret false, printed st0 ["Save error: Permission denied"]).
Proof.
  split.
  - apply (proj1 (save_chart_never_propagates
                    (quiet_world EmptyFile "y") boundary_figure
                    "out/chart.png" st0)).
    reflexivity.
  - destruct (proj2 (save_chart_never_propagates
                       (mk_world (fun _ => true) (fun _ => EmptyFile) (Ret tt)
                          (Ret "y")
                          (fun _ => raise_ OSError "Permission denied"))
                       boundary_figure "/chart.png" st0))
      as (_ & Hio).
    apply Hio. reflexivity.
Defined.

(** Three complete lines and the save declined: the pipeline succeeds and
    the status is 0.  Ctrl-C at the prompt: a cancellation, status 1.  A
    negative Stock: the chart call raises, status 1.  A visualizer whose chart
    is null after a good load: status 1. *)
Lemma main_exit_status_witness :
  fst (run (quiet_world (csv [entry "A" 10; entry "B" 20; entry "C" 5]) "n"))
  = Ret 0%Z
  /\ fst (run (mk_world (fun _ => true) (fun _ => csv [entry "A" 10])
                (Ret tt) (raise_ KeyboardInterrupt "") (fun _ => Ret tt)))
     = Ret 1%Z
  /\ fst (run (quiet_world (csv [entry "A" (-5); entry "B" 10]) "n"))
     = Ret 1%Z
  /\ fst (main_of
            (mk_visualizer
               (load_data (quiet_world (csv [entry "A" 10]) "n"))
               (ret None) print_statistics
               (save_chart (quiet_world (csv [entry "A" 10]) "n")) cleanup)
            (quiet_world (csv [entry "A" 10]) "n") st0)
     = Ret 1%Z.
Proof.
  split; [|split; [|split]].
  - apply (proj1 (main_exit_status _)).
    eexists. eexists. exists "n".
    split; [|intros Hy; discriminate Hy].
    split; [split; [eexists; split; [eexists; split|]|]|]; lazy; reflexivity.
  - apply (proj1 (proj2 (main_exit_status _))).
    right; right; left. eexists.
    split;
      [right; right; right; right; left; eexists; eexists;
       split; [split; [eexists; split; [eexists; split|]|]|];
       lazy; reflexivity
      |reflexivity].
  - apply (proj1 (proj2 (main_exit_status _))).
    right; right; right.
    exists (mk_exn ValueError "Wedge sizes 'x' must be non negative values").
    split; [|reflexivity].
    right; left. exists negative_state. split; reflexivity.
  - rewrite (proj2 (proj2 (main_exit_status
                             (quiet_world (csv [entry "A" 10]) "n")))
               (load_data (quiet_world (csv [entry "A" 10]) "n"))
               (ret None) _ _ eq_refl eq_refl).
    reflexivity.
Defined.

(** Twenty-three records need three copies of the palette. *)
Lemma colors_cycle_in_bounds_witness :
  List.length (colors_cycle 23) = 30
  /\ List.length (slice_to 23 (colors_cycle 23)) = 23
  /\ exists c, nth_error (slice_to 23 (colors_cycle 23)) 22 = Some c.
Proof.
  destruct (colors_cycle_in_bounds 23) as (Hlen & _ & Hcut & Hin).
  split; [exact Hlen|]. split; [exact Hcut|]. apply Hin. lia.
Defined.

(** * Further properties of the visualizer *)

(** ** Loading, then rendering *)



(** X2.  The arguments [create_visualization] hands to the chart are
    aligned with the dataset: sizes, labels, explode offsets, colours and
    legend entries all come one per record, and legend entry [i] is
    "Product: Stock" of record [i]. *)
Theorem chart_arguments_aligned :
  forall (st st' : state) (d : DataFrame) (fig : Figure),
    df st = Some d ->
    create_visualization st = (Ret (Some fig), st') ->
    List.length (pie_x fig) = List.length (rows d)
    /\ List.length (pie_labels fig) = List.length (rows d)
    /\ List.length (pie_explode fig) = List.length (rows d)
    /\ List.length (pie_colors fig) = List.length (rows d)
    /\ List.length (legend_labels fig) = List.length (rows d)
    /\ (forall i r, nth_error (rows d) i = Some r ->
          nth_error (pie_x fig) i = Some (Stock r)
          /\ nth_error (pie_labels fig) i = Some (Product r)
          /\ nth_error (legend_labels fig) i =
               Some (str_of_product (Product r) ++ ": " ++ str_of_Z (Stock r))).
Proof.
  intros st st' d fig Hdf Hfig.
  assert (Hleg : legend_labels fig =
                 map (fun r => str_of_product (Product r) ++ ": "
                                 ++ str_of_Z (Stock r)) (rows d)).
  { destruct (create_visualization_figure st st' d fig Hdf Hfig) as [_ ->].
    reflexivity. }
  destruct (create_visualization_shape st st' d fig Hdf Hfig)
    as (_ & Hx & Hl & He & Hc).
  rewrite Hx, Hl, He, Hc, Hleg. unfold _calculate_explode.
  rewrite chart_colors_length, !length_map, length_values.
  unfold col_Stock. rewrite length_map.
  repeat split; try reflexivity.
  - rewrite nth_error_map, H. reflexivity.
  - rewrite nth_error_map, H. reflexivity.
  - rewrite nth_error_map, H. reflexivity.
Qed.

Lemma chart_arguments_aligned_witness :
  exists fig,
    create_visualization boundary_state = (Ret (Some fig), boundary_state)
    /\ List.length (legend_labels fig) = 2
    /\ nth_error (legend_labels fig) 1 = Some "B: 29".
Proof.
  eexists. split; [reflexivity|].
  destruct (chart_arguments_aligned boundary_state boundary_state
              (mk_frame REQUIRED_COLUMNS
                 [mk_row 0 (Some "A") 30; mk_row 1 (Some "B") 29])
              _ eq_refl eq_refl) as (_ & _ & _ & _ & Hlen & Hnth).
  split; [exact Hlen|].
  exact (proj2 (proj2 (Hnth 1 (mk_row 1 (Some "B") 29) eq_refl))).
Defined.

Lemma NoDup_COLORS : NoDup COLORS.
Proof.
  unfold COLORS.
  repeat (constructor;
          [simpl; intros H;
           repeat (destruct H as [H|H]; [discriminate H|]); exact H|]).
  constructor.
Qed.

(** X3.  Two wedges of a chart are drawn in the same colour exactly when
    their positions differ by a multiple of ten: the ten palette colours are
    distinct, so no two of ten consecutive wedges look alike. *)
Theorem wedges_share_colour_iff :
  forall (st st' : state) (d : DataFrame) (fig : Figure) (i j : nat),
    df st = Some d ->
    create_visualization st = (Ret (Some fig), st') ->
    i < List.length (rows d) ->
    j < List.length (rows d) ->
    (wedge_color fig i = wedge_color fig j <-> i mod 10 = j mod 10).
Proof.
  intros st st' d fig i j Hdf Hfig Hi Hj.
  destruct (create_visualization_shape st st' d fig Hdf Hfig)
    as (_ & _ & _ & _ & Hc).
  unfold wedge_color. rewrite Hc, chart_colors_length.
  rewrite (Nat.mod_small i _ Hi), (Nat.mod_small j _ Hj).
  rewrite (chart_colors_nth _ i Hi), (chart_colors_nth _ j Hj).
  split.
  - intros Heq.
    assert (Hbi : i mod 10 < List.length COLORS)
      by (rewrite length_COLORS; apply Nat.mod_upper_bound; lia).
    apply (proj1 (NoDup_nth_error COLORS) NoDup_COLORS _ _ Hbi Heq).
  - intros ->. reflexivity.
Qed.

Lemma wedges_share_colour_iff_witness :
  exists fig,
    create_visualization state23 = (Ret (Some fig), state23)
    /\ (wedge_color fig 3 = wedge_color fig 13 <-> 3 mod 10 = 13 mod 10)
    /\ (wedge_color fig 3 = wedge_color fig 4 <-> 3 mod 10 = 4 mod 10).
Proof.
  eexists. split; [reflexivity|]. split.
  - apply (wedges_share_colour_iff state23 state23 frame23 _ 3 13
             eq_refl eq_refl); simpl; lia.
  - apply (wedges_share_colour_iff state23 state23 frame23 _ 3 4
             eq_refl eq_refl); simpl; lia.
Defined.

(** ** What the loader keeps *)

Lemma kept_rows_records (k : nat) (body : list csv_row) :
  map row_record (filter (fun r => negb (has_na r)) (index_rows k body)) =
  map line_record (filter has_product body).
Proof.
  revert k. induction body as [|c body IH]; intros k; simpl; [reflexivity|].
  unfold has_na at 1, has_product at 1. simpl.
  destruct (cell_Product c) eqn:Hc; simpl; rewrite IH; [|reflexivity].
  f_equal. unfold row_record, line_record. simpl. rewrite Hc. reflexivity.
Qed.

Lemma index_rows_line (body : list csv_row) (k : nat) (r : frame_row) :
  In r (index_rows k body) ->
  k <= row_label r
  /\ exists c, nth_error body (row_label r - k) = Some c
               /\ line_record c = row_record r.
Proof.
  revert k. induction body as [|c body IH]; intros k Hin; simpl in Hin.
  - contradiction.
  - destruct Hin as [<-|Hin].
    + simpl. split; [lia|]. rewrite Nat.sub_diag. exists c.
      split; reflexivity.
    + destruct (IH (S k) Hin) as (Hle & c' & Hnth & Hrec).
      split; [lia|]. exists c'. split; [|exact Hrec].
      replace (row_label r - k) with (S (row_label r - S k)) by lia.
      exact Hnth.
Qed.

Lemma labels_increase (k : nat) (body : list csv_row) :
  StronglySorted lt
    (map row_label (filter (fun r => negb (has_na r)) (index_rows k body))).
Proof.
  revert k. induction body as [|c body IH]; intros k; simpl; [constructor|].
  destruct (negb (has_na (mk_row k (cell_Product c)
                            (stock_value (cell_Stock c))))).
  - simpl. constructor; [apply IH|].
    apply Forall_forall. intros l Hl. apply in_map_iff in Hl.
    destruct Hl as (r & <- & Hr). apply filter_In in Hr.
    destruct Hr as [Hr _]. apply index_rows_line in Hr. lia.
  - apply IH.
Qed.

(** X4.  When the file has both columns and every Stock field is an
    integer that the column's int32 dtype can hold (from -2^31 to 2^31 - 1),
    the frame [load_data] stores holds exactly the lines that have a
    Product, in file order and with their Product and Stock; each row keeps
    as its index label the number of its line in the file (so labels
    increase, with a gap wherever a line was dropped); and the answer is
    [True] exactly when at least one line is kept. *)
Theorem load_data_keeps_complete_lines :
  forall (w : World) (st : state) (header : list string)
         (body : list csv_row),
    path_exists w (csv_path st) = true ->
    file_at w (csv_path st) = Table header body ->
    issubset REQUIRED_COLUMNS header = true ->
    forallb stock_storable body = true ->
    exists d,
      df (snd (load_data w st)) = Some d
      /\ map row_record (rows d) = map line_record (filter has_product body)
      /\ (forall r, In r (rows d) ->
            exists c, nth_error body (row_label r) = Some c
                      /\ cell_Product c = Product r
                      /\ cell_Stock c = StockInt (Stock r))
      /\ StronglySorted lt (map row_label (rows d))
      /\ fst (load_data w st) = Ret (existsb has_product body).
Proof.
  intros w st header body Hex Hfile Hh Hb.
  pose proof (load_data_integer_stock w st header body Hex Hfile Hh Hb) as Hrun.
  simpl in Hrun. eexists. split; [|split; [|split; [|split]]].
  - rewrite Hrun. destruct (existsb has_product body); reflexivity.
  - unfold dropna. cbn [rows]. apply kept_rows_records.
  - intros r Hin. unfold dropna in Hin. cbn [rows] in Hin.
    apply filter_In in Hin. destruct Hin as [Hin _].
    destruct (index_rows_line body 0 r Hin) as (_ & c & Hnth & Hrec).
    rewrite Nat.sub_0_r in Hnth. exists c. split; [exact Hnth|].
    unfold line_record, row_record in Hrec. injection Hrec as Hp Hs.
    split; [exact Hp|].
    assert (Hint : stock_storable c = true).
    { rewrite forallb_forall in Hb. apply Hb.
      apply nth_error_In with (n := row_label r). exact Hnth. }
    unfold stock_storable in Hint. destruct (cell_Stock c); try discriminate.
    simpl in Hs. rewrite Hs. reflexivity.
  - unfold dropna. cbn [rows]. apply labels_increase.
  - rewrite Hrun. destruct (existsb has_product body); reflexivity.
Qed.

Lemma load_data_keeps_complete_lines_witness :
  exists d,
    df (snd (load_data
               (quiet_world (csv [entry "A" 3; unnamed 7; entry "B" 5]) "n")
               st0)) = Some d
    /\ map row_record (rows d) = [(Some "A", 3%Z); (Some "B", 5%Z)]
    /\ StronglySorted lt (map row_label (rows d)).
Proof.
  destruct (load_data_keeps_complete_lines
              (quiet_world (csv [entry "A" 3; unnamed 7; entry "B" 5]) "n")
              st0 ["Product"; "Stock"]
              [entry "A" 3; unnamed 7; entry "B" 5]
              eq_refl eq_refl eq_refl eq_refl)
    as (d & Hdf & Hrec & _ & Hsorted & _).
  exists d. split; [exact Hdf|]. split; [exact Hrec|exact Hsorted].
Defined.

(** X5.  When no line of a readable file has a Product (a file with only
    its header among them), [load_data] prints "Error: No valid data found!"
    and answers [False], but the visualizer is left holding the empty frame,
    not [None] (the Stock fields being int32 integers): [create_visualization]
    called afterwards does not answer [None] but raises the ValueError of a
    pie chart without sizes, and [print_statistics] raises ValueError before
    printing. *)
Theorem load_data_no_valid_rows_leaves_frame :
  forall (w : World) (st : state) (header : list string)
         (body : list csv_row),
    path_exists w (csv_path st) = true ->
    file_at w (csv_path st) = Table header body ->
    issubset REQUIRED_COLUMNS header = true ->
    forallb stock_storable body = true ->
    existsb has_product body = false ->
    exists d st1,
      load_data w st = (Ret false, st1)
      /\ st1 = mk_state (csv_path st) (Some d)
                 (stdout st ++ ["Error: No valid data found!"])
      /\ rows d = []
      /\ (exists msg,
             create_visualization st1 = (raise_ ValueError msg, st1))
      /\ print_statistics st1 =
           (raise_ ValueError "attempt to get argmax of an empty sequence",
            st1).
Proof.
  intros w st header body Hex Hfile Hh Hb Hnone.
  pose proof (load_data_integer_stock w st header body Hex Hfile Hh Hb) as Hrun.
  simpl in Hrun. rewrite Hnone in Hrun.
  assert (Hrows : rows (dropna (mk_frame
                    (filter (fun c => mem c REQUIRED_COLUMNS) header)
                    (index_rows 0 body))) = []).
  { unfold dropna. cbn [rows]. apply kept_rows_nil. exact Hnone. }
  eexists. eexists. split; [exact Hrun|]. split; [reflexivity|].
  split; [exact Hrows|]. split.
  - eexists.
    match goal with
    | |- create_visualization ?s = _ =>
        rewrite (create_visualization_unfold s _ eq_refl)
    end.
    rewrite Hrows. reflexivity.
  - unfold print_statistics, bind, get, lift. cbn [fst snd df].
    unfold col_Stock. rewrite Hrows. reflexivity.
Qed.

Lemma load_data_no_valid_rows_leaves_frame_witness :
  exists d st1,
    load_data (quiet_world (csv [unnamed 4; unnamed 9]) "n") st0
    = (Ret false, st1)
    /\ df st1 = Some d /\ rows d = []
    /\ fst (create_visualization st1) <> Ret None.
Proof.
  destruct (load_data_no_valid_rows_leaves_frame
              (quiet_world (csv [unnamed 4; unnamed 9]) "n") st0
              ["Product"; "Stock"] [unnamed 4; unnamed 9]
              eq_refl eq_refl eq_refl eq_refl eq_refl)
    as (d & st1 & Hload & Hst & Hrows & (msg & Hfig) & _).
  exists d, st1. split; [exact Hload|]. split; [rewrite Hst; reflexivity|].
  split; [exact Hrows|]. rewrite Hfig. discriminate.
Defined.

(** ** The entry point, step by step *)

(** [main] in terms of the body of its [try]. *)
Lemma run_of_main_body (w : World) :
  run w =
    match main_body w st0 with
    | (Ret z, st1) => (Ret z, cleaned st1)
    | (Raise e, st1) =>
        if is_KeyboardInterrupt e then
          (Ret 1%Z, cleaned (printed st1 [cancelled_line]))
        else if is_Exception e then
          (Ret 1%Z, cleaned (printed st1 ["Unexpected error: " ++ exn_msg e]))
        else (Raise e, cleaned st1)
    end.
Proof.
  unfold run, main, main_of, try_finally, try_except.
  cbn [StockVisualizer v_cleanup]. fold (main_body w). fold st0.
  destruct (main_body w st0) as [[z|e] st1].
  - rewrite cleanup_cleaned. reflexivity.
  - destruct (is_KeyboardInterrupt e).
    + unfold bind, print, ret. rewrite cleanup_cleaned. reflexivity.
    + destruct (is_Exception e).
      * unfold bind, print, ret. rewrite cleanup_cleaned. reflexivity.
      * rewrite cleanup_cleaned. reflexivity.
Qed.

(** X6.  [main] always finishes with the dataset released: whatever the
    world does, and whether [main] returns 0, returns 1 or lets an exception
    through, the visualizer holds no frame afterwards. *)
Theorem main_always_cleans_up :
  forall w : World, df (snd (run w)) = None.
Proof.
  intros w. rewrite run_of_main_body.
  destruct (main_body w st0) as [[z|e] st1]; [reflexivity|].
  destruct (is_KeyboardInterrupt e); [reflexivity|].
  destruct (is_Exception e); reflexivity.
Qed.

(** X7.  An exception of the read that [load_data] does not name (an
    OSError, say: the path is a directory, or may not be opened) leaves
    [load_data] as it is, with nothing printed and the visualizer untouched;
    [main] then reports it as "Unexpected error: <message>" and returns 1. *)
Theorem unlisted_read_error_reaches_main :
  forall (w : World) (e : exn),
    path_exists w CSV_FILE = true ->
    read_csv (file_at w CSV_FILE) = Raise e ->
    is_read_error e = false ->
    load_data w st0 = (Raise e, st0)
    /\ (is_Exception e = true ->
        run w = (Ret 1%Z,
                 mk_state CSV_FILE None ["Unexpected error: " ++ exn_msg e])).
Proof.
  intros w e Hex Hread Hcls.
  assert (Hload : load_data w st0 = (Raise e, st0)).
  { unfold load_data, try_except, bind, get, lift. cbn [fst snd csv_path st0 init].
    rewrite Hex. cbn [negb]. rewrite Hread, Hcls. reflexivity. }
  split; [exact Hload|]. intros Hexc.
  rewrite run_of_main_body, main_body_unfold, Hload.
  assert (Hki : is_KeyboardInterrupt e = false).
  { unfold is_KeyboardInterrupt, is_Exception in *.
    destruct (exn_cls e); try reflexivity; discriminate. }
  rewrite Hki, Hexc. reflexivity.
Qed.

Lemma unlisted_read_error_reaches_main_witness :
  run (quiet_world (Unreadable "Is a directory") "n")
  = (Ret 1%Z, mk_state CSV_FILE None ["Unexpected error: Is a directory"]).
Proof.
  apply (proj2 (unlisted_read_error_reaches_main
                  (quiet_world (Unreadable "Is a directory") "n")
                  (mk_exn OSError "Is a directory")
                  eq_refl eq_refl eq_refl)).
  reflexivity.
Defined.

(** X8.  After a load that answered [False], [main] returns 1 at once:
    nothing is rendered, no statistics are printed and the user is not
    asked anything; the console holds the loader's lines and no other. *)
Theorem main_stops_after_failed_load :
  forall (w : World) (st1 : state),
    load_data w st0 = (Ret false, st1) ->
    run w = (Ret 1%Z, cleaned st1).
Proof.
  intros w st1 Hload.
  rewrite run_of_main_body, main_body_unfold, Hload. reflexivity.
Qed.

Lemma main_stops_after_failed_load_witness :
  run (quiet_world (csv [unnamed 4]) "y")
  = (Ret 1%Z, mk_state CSV_FILE None ["Error: No valid data found!"]).
Proof.
  exact (main_stops_after_failed_load
           (quiet_world (csv [unnamed 4]) "y")
           (mk_state CSV_FILE (Some (mk_frame ["Product"; "Stock"] []))
              ["Error: No valid data found!"])
           eq_refl).
Defined.

(** X9.  When an exception leaves a step of the pipeline, [main] adds one
    line to what that step had printed: the cancellation line for
    KeyboardInterrupt, "Unexpected error: <message>" for an Exception, both
    with status 1; any other exception is passed on with no line added. *)
Theorem main_reports_escaping_exception :
  forall (w : World) (e : exn),
    escapes w e ->
    (is_KeyboardInterrupt e = true ->
       fst (run w) = Ret 1%Z
       /\ stdout (snd (run w)) =
            (stdout (snd (main_body w st0)) ++ [cancelled_line])%list)
    /\ (is_Exception e = true ->
        fst (run w) = Ret 1%Z
        /\ stdout (snd (run w)) =
             (stdout (snd (main_body w st0))
                ++ [("Unexpected error: " ++ exn_msg e)%string])%list)
    /\ (is_KeyboardInterrupt e = false -> is_Exception e = false ->
        fst (run w) = Raise e
        /\ stdout (snd (run w)) = stdout (snd (main_body w st0))).
Proof.
  intros w e Hesc. pose proof (main_body_escapes w e Hesc) as Hbody.
  rewrite run_of_main_body.
  destruct (main_body w st0) as [[z|e'] st1]; simpl in Hbody;
    [discriminate|]. injection Hbody as ->.
  split; [|split].
  - intros Hki. rewrite Hki. split; reflexivity.
  - intros Hexc.
    assert (Hki : is_KeyboardInterrupt e = false).
    { unfold is_KeyboardInterrupt, is_Exception in *.
      destruct (exn_cls e); try reflexivity; discriminate. }
    rewrite Hki, Hexc. split; reflexivity.
  - intros Hki Hexc. rewrite Hki, Hexc. split; reflexivity.
Qed.

Lemma main_reports_escaping_exception_witness :
  stdout (snd (run (mk_world (fun _ => true) (fun _ => csv [entry "A" 10])
                      (raise_ KeyboardInterrupt "") (Ret "n")
                      (fun _ => Ret tt))))
  = [newline ++ rule; "STOCK ANALYSIS"; rule; "Total Stock: 10 units";
     "Products: 1"; "Average Stock: 10.0 units"; "Highest: A (10 units)";
     "Lowest: A (10 units)"; cancelled_line].
Proof.
  assert (Hesc : escapes
                   (mk_world (fun _ => true) (fun _ => csv [entry "A" 10])
                      (raise_ KeyboardInterrupt "") (Ret "n")
                      (fun _ => Ret tt))
                   (mk_exn KeyboardInterrupt "")).
  { right; right; right; left. eexists. eexists.
    split; [eexists; split; [eexists; split|]|]; lazy; reflexivity. }
  destruct (proj1 (main_reports_escaping_exception _ _ Hesc) eq_refl)
    as [_ Hout].
  rewrite Hout. reflexivity.
Defined.

(** ** The optional save *)

Lemma lower_ascii_y (c : ascii) :
  lower_ascii c = "y"%char -> c = "y"%char \/ c = "Y"%char.
Proof.
  destruct c as [[] [] [] [] [] [] [] []]; vm_compute; intros H;
    try discriminate H; auto.
Qed.

(** The answers [main] takes for a yes. *)
Lemma lower_is_y (s : string) : lower s = "y" <-> s = "y" \/ s = "Y".
Proof.
  split.
  - destruct s as [|c [|c' s']]; simpl; intros H; try discriminate H.
    injection H as H. destruct (lower_ascii_y c H) as [->| ->]; auto.
  - intros [->| ->]; reflexivity.
Qed.

(** X10.  Unless the user answers [y] or [Y], [main] does not touch the
    image writer: the whole run (status, console, final state) is the same
    whatever writing the file would have done. *)
Theorem declined_save_never_writes :
  forall (w : World) (f : string -> result unit),
    (forall answer, input_outcome w = Ret answer ->
                    answer <> "y" /\ answer <> "Y") ->
    run (with_savefig w f) = run w.
Proof.
  intros w f Hno. rewrite !run_of_main_body.
  assert (Hbody : main_body (with_savefig w f) st0 = main_body w st0).
  { rewrite !main_body_unfold.
    change (load_data (with_savefig w f) st0) with (load_data w st0).
    change (show_outcome (with_savefig w f)) with (show_outcome w).
    change (input_outcome (with_savefig w f)) with (input_outcome w).
    destruct (load_data w st0) as [[[|]|e] st1]; try reflexivity.
    destruct (create_visualization st1) as [[[fig|]|e] st2]; try reflexivity.
    destruct (print_statistics st2) as [[[]|e] st3]; try reflexivity.
    destruct (show_outcome w) as [[]|e]; try reflexivity.
    destruct (input_outcome w) as [answer|e] eqn:Hin; try reflexivity.
    destruct (String.eqb (lower answer) "y") eqn:Hy; [|reflexivity].
    apply String.eqb_eq in Hy. apply lower_is_y in Hy.
    destruct (Hno answer eq_refl) as [Hn1 Hn2]. destruct Hy; contradiction. }
  rewrite Hbody. reflexivity.
Qed.

Lemma declined_save_never_writes_witness :
  run (with_savefig (quiet_world (csv [entry "A" 10]) "yes")
         (fun _ => raise_ OSError "Disk full"))
  = run (quiet_world (csv [entry "A" 10]) "yes").
Proof.
  apply (declined_save_never_writes (quiet_world (csv [entry "A" 10]) "yes")).
  intros answer H. injection H as <-. split; discriminate.
Defined.

(** X11.  When the user answers [y] or [Y], [main] saves under the default
    name: a write that succeeds adds "Chart saved: stock_chart.png" after the
    prompt, a write that fails with an error adds "Save error: <message>",
    and the exit status is 0 in both cases. *)
Theorem main_save_outcomes :
  forall (w : World) (fig : Figure) (st : state) (answer : string),
    asked w fig st answer ->
    answer = "y" \/ answer = "Y" ->
    (savefig_outcome w "stock_chart.png" = Ret tt ->
       run w = (Ret 0%Z,
                cleaned (printed st [save_prompt;
                                     "Chart saved: stock_chart.png"])))
    /\ (forall e, savefig_outcome w "stock_chart.png" = Raise e ->
          is_Exception e = true ->
          run w = (Ret 0%Z,
                   cleaned (printed st [save_prompt;
                                        "Save error: " ++ exn_msg e]))).
Proof.
  intros w fig st answer Hasked Hyes.
  destruct Hasked as [[[st2 [[st1 [Hl Hc]] Hp]] Hs] Hi].
  apply lower_is_y in Hyes.
  assert (Hrun : run w =
            match save_chart w fig "stock_chart.png" (printed st [save_prompt])
            with
            | (Ret _, st5) => (Ret 0%Z, cleaned st5)
            | (Raise e, st5) =>
                if is_KeyboardInterrupt e then
                  (Ret 1%Z, cleaned (printed st5 [cancelled_line]))
                else if is_Exception e then
                  (Ret 1%Z,
                   cleaned (printed st5 ["Unexpected error: " ++ exn_msg e]))
                else (Raise e, cleaned st5)
            end).
  { rewrite run_of_main_body, main_body_unfold, Hl, Hc, Hp, Hs, Hi, Hyes.
    simpl String.eqb. cbv iota.
    destruct (save_chart w fig "stock_chart.png" (printed st [save_prompt]))
      as [[b|e] st5]; reflexivity. }
  split.
  - intros Hsv. rewrite Hrun, save_chart_result, Hsv.
    unfold cleaned, printed. cbn [csv_path df stdout].
    rewrite <- app_assoc. reflexivity.
  - intros e Hsv Hexc. rewrite Hrun, save_chart_result, Hsv, Hexc.
    unfold cleaned, printed. cbn [csv_path df stdout].
    rewrite <- app_assoc. reflexivity.
Qed.

Lemma main_save_outcomes_witness :
  exists fig st,
    asked (mk_world (fun _ => true) (fun _ => csv [entry "A" 10])
             (Ret tt) (Ret "Y") (fun _ => raise_ OSError "Permission denied"))
          fig st "Y"
    /\ run (mk_world (fun _ => true) (fun _ => csv [entry "A" 10])
              (Ret tt) (Ret "Y")
              (fun _ => raise_ OSError "Permission denied"))
       = (Ret 0%Z,
          cleaned (printed st [save_prompt; "Save error: Permission denied"])).
Proof.
  eexists. eexists.
  match goal with |- ?A /\ _ => assert (Hasked : A) end.
  { split; [split; [eexists; split; [eexists; split|]|]|]; lazy; reflexivity. }
  split; [exact Hasked|].
  apply (proj2 (main_save_outcomes _ _ _ "Y" Hasked (or_intror eq_refl))
           (mk_exn OSError "Permission denied")); reflexivity.
Defined.

(** ** The statistics report *)

(** X12.  [print_statistics] only writes to the console: the frame and the
    path of the visualizer are never changed, not even when the report is cut
    short by an exception, and what was on the console stays in front of what
    is added.  With no frame loaded nothing is printed and nothing raised. *)
Theorem print_statistics_only_prints :
  forall st : state,
    df (snd (print_statistics st)) = df st
    /\ csv_path (snd (print_statistics st)) = csv_path st
    /\ (exists lines,
           stdout (snd (print_statistics st)) = (stdout st ++ lines)%list)
    /\ (df st = None -> print_statistics st = (Ret tt, st)).
Proof.
  intros st.
  assert (Hnone : df st = None -> print_statistics st = (Ret tt, st)).
  { intros Hdf. unfold print_statistics, bind, get, ret. cbn [fst snd].
    rewrite Hdf. reflexivity. }
  destruct (df st) as [d|] eqn:Hdf.
  - destruct (rows d) as [|r rs] eqn:Hrows.
    + assert (Hrun : print_statistics st =
                (raise_ ValueError "attempt to get argmax of an empty sequence",
                 st)).
      { unfold print_statistics, bind, get, lift. cbn [fst snd].
        rewrite Hdf. unfold col_Stock. rewrite Hrows. reflexivity. }
      rewrite Hrun. cbn [snd]. repeat split; try assumption.
      * exists []. rewrite app_nil_r. reflexivity.
      * discriminate.
    + assert (Hne : rows d <> []) by (rewrite Hrows; discriminate).
      destruct (print_statistics_reports st d Hdf Hne)
        as (rmax & rmin & _ & _ & Hrun).
      rewrite Hrun.
      destruct (nth_error (rows d) (row_label rmax)) as [hi|];
        [destruct (nth_error (rows d) (row_label rmin)) as [lo|]|];
        cbn [snd printed df csv_path stdout];
        (split; [exact Hdf|]); (split; [reflexivity|]);
        (split; [eexists; reflexivity|discriminate]).
  - rewrite (Hnone eq_refl). cbn [snd]. repeat split; try assumption.
    exists []. rewrite app_nil_r. reflexivity.
Qed.

(** X13.  For a file in which every line has both fields, the Stock an
    integer that the column's int32 dtype can hold, the report
    printed after the load is the right one: six header lines, then the first
    record with the largest Stock as "Highest" and the first record with the
    smallest Stock as "Lowest", and nothing is raised. *)
Theorem statistics_of_complete_file :
  forall (w : World) (st : state) (header : list string)
         (body : list csv_row),
    path_exists w (csv_path st) = true ->
    file_at w (csv_path st) = Table header body ->
    issubset REQUIRED_COLUMNS header = true ->
    forallb row_complete body = true ->
    forallb stock_storable body = true ->
    body <> [] ->
    exists st1 d rmax rmin,
      load_data w st = (Ret true, st1)
      /\ df st1 = Some d
      /\ map row_record (rows d) = map line_record body
      /\ first_extreme (fun z => z) (rows d) rmax
      /\ first_extreme Z.opp (rows d) rmin
      /\ print_statistics st1 =
           (Ret tt,
            printed st1 (stats_header d
                           ++ [extreme_line "Highest: " rmax;
                               extreme_line "Lowest: " rmin])).
Proof.
  intros w st header body Hex Hfile Hh Hall Hint Hne.
  assert (Hprod : forallb has_product body = true).
  { rewrite forallb_forall in *. intros c Hc. specialize (Hall c Hc).
    unfold row_complete in Hall. apply andb_prop in Hall. tauto. }
  assert (Hsome : existsb has_product body = true).
  { destruct body as [|c body]; [congruence|]. simpl in *.
    apply andb_prop in Hprod. destruct Hprod as [-> _]. reflexivity. }
  assert (Hkeep : filter has_product body = body).
  { clear -Hprod. induction body as [|c body IH]; simpl in *; [reflexivity|].
    apply andb_prop in Hprod. destruct Hprod as [Hc Hb].
    rewrite Hc, (IH Hb). reflexivity. }
  pose proof (load_data_integer_stock w st header body Hex Hfile Hh Hint)
    as Hrun.
  simpl in Hrun. rewrite Hsome in Hrun.
  pose proof (positional_complete
                (filter (fun c => mem c REQUIRED_COLUMNS) header) body Hprod)
    as Hpos.
  set (d := dropna (mk_frame (filter (fun c => mem c REQUIRED_COLUMNS) header)
                             (index_rows 0 body))) in *.
  assert (Hrec : map row_record (rows d) = map line_record body).
  { subst d. unfold dropna. cbn [rows].
    rewrite kept_rows_records, Hkeep. reflexivity. }
  assert (Hrows : rows d <> []).
  { intros Hnil. rewrite Hnil in Hrec. destruct body; [congruence|discriminate]. }
  destruct (print_statistics_positional
              (mk_state (csv_path st) (Some d) (stdout st)) d
              eq_refl Hrows Hpos) as (rmax & rmin & Hmax & Hmin & Hstats).
  eexists. exists d, rmax, rmin.
  split; [exact Hrun|]. split; [reflexivity|]. split; [exact Hrec|].
  split; [exact Hmax|]. split; [exact Hmin|exact Hstats].
Qed.

Lemma statistics_of_complete_file_witness :
  exists st1 d rmax rmin,
    load_data (quiet_world (csv [entry "A" 7; entry "B" 9; entry "C" 9]) "n")
              st0 = (Ret true, st1)
    /\ df st1 = Some d
    /\ first_extreme (fun z => z) (rows d) rmax
    /\ print_statistics st1 =
         (Ret tt,
          printed st1 (stats_header d
                         ++ [extreme_line "Highest: " rmax;
                             extreme_line "Lowest: " rmin])).
Proof.
  destruct (statistics_of_complete_file
              (quiet_world (csv [entry "A" 7; entry "B" 9; entry "C" 9]) "n")
              st0 ["Product"; "Stock"]
              [entry "A" 7; entry "B" 9; entry "C" 9]
              eq_refl eq_refl eq_refl eq_refl eq_refl)
    as (st1 & d & rmax & rmin & Hload & Hdf & _ & Hmax & _ & Hstats).
  - discriminate.
  - exists st1, d, rmax, rmin. repeat split; assumption.
Defined.

(** X14.  On a loaded frame with at least one row, [print_statistics]
    always prints its six header lines (rule, title, rule, total, count,
    average); it completes exactly when the index labels of the first largest
    and of the first smallest row are both smaller than the number of rows,
    and the only exception it can raise is IndexError. *)
Theorem print_statistics_completes_iff :
  forall (st : state) (d : DataFrame),
    df st = Some d ->
    rows d <> [] ->
    exists rmax rmin,
      first_extreme (fun z => z) (rows d) rmax
      /\ first_extreme Z.opp (rows d) rmin
      /\ (fst (print_statistics st) = Ret tt <->
          row_label rmax < List.length (rows d)
          /\ row_label rmin < List.length (rows d))
      /\ (forall e, fst (print_statistics st) = Raise e ->
                    exn_cls e = IndexError)
      /\ (exists more,
             stdout (snd (print_statistics st)) =
               (stdout st ++ stats_header d ++ more)%list).
Proof.
  intros st d Hdf Hne.
  destruct (print_statistics_reports st d Hdf Hne)
    as (rmax & rmin & Hmax & Hmin & Hrun).
  exists rmax, rmin. split; [exact Hmax|]. split; [exact Hmin|].
  rewrite Hrun.
  destruct (nth_error (rows d) (row_label rmax)) as [hi|] eqn:Ehi.
  - assert (Hhi : row_label rmax < List.length (rows d))
      by (apply nth_error_Some; congruence).
    destruct (nth_error (rows d) (row_label rmin)) as [lo|] eqn:Elo.
    + assert (Hlo : row_label rmin < List.length (rows d))
        by (apply nth_error_Some; congruence).
      cbn [fst snd printed stdout]. split; [tauto|].
      split; [discriminate|]. eexists. reflexivity.
    + apply nth_error_None in Elo.
      cbn [fst snd printed stdout]. split; [split; [discriminate|lia]|].
      split; [intros e H; injection H as <-; reflexivity|].
      eexists. reflexivity.
  - apply nth_error_None in Ehi.
    cbn [fst snd printed stdout]. split; [split; [discriminate|lia]|].
    split; [intros e H; injection H as <-; reflexivity|].
    exists []. rewrite app_nil_r. reflexivity.
Qed.

Lemma print_statistics_completes_iff_witness :
  exists rmax rmin,
    first_extreme (fun z => z)
      [mk_row 1 (Some "A") 10; mk_row 2 (Some "B") 20; mk_row 3 (Some "C") 5]
      rmax
    /\ (fst (print_statistics
               (mk_state CSV_FILE
                  (Some (mk_frame REQUIRED_COLUMNS
                           [mk_row 1 (Some "A") 10; mk_row 2 (Some "B") 20;
                            mk_row 3 (Some "C") 5])) [])) = Ret tt <->
        row_label rmax < 3 /\ row_label rmin < 3).
Proof.
  destruct (print_statistics_completes_iff
              (mk_state CSV_FILE
                 (Some (mk_frame REQUIRED_COLUMNS
                          [mk_row 1 (Some "A") 10; mk_row 2 (Some "B") 20;
                           mk_row 3 (Some "C") 5])) [])
              (mk_frame REQUIRED_COLUMNS
                 [mk_row 1 (Some "A") 10; mk_row 2 (Some "B") 20;
                  mk_row 3 (Some "C") 5])
              eq_refl)
    as (rmax & rmin & Hmax & _ & Hiff & _).
  - discriminate.
  - exists rmax, rmin. split; [exact Hmax|exact Hiff].
Defined.

(** X15.  Once the question has been asked and answered with anything but
    [y] or [Y], [main] returns 0 and the prompt is the last thing on the
    console: no line about a saved chart or a save error follows. *)
Theorem main_declined_save :
  forall (w : World) (fig : Figure) (st : state) (answer : string),
    asked w fig st answer ->
    answer <> "y" ->
    answer <> "Y" ->
    run w = (Ret 0%Z, cleaned (printed st [save_prompt])).
Proof.
  intros w fig st answer Hasked Hn1 Hn2.
  destruct Hasked as [[[st2 [[st1 [Hl Hc]] Hp]] Hs] Hi].
  rewrite run_of_main_body, main_body_unfold, Hl, Hc, Hp, Hs, Hi.
  destruct (String.eqb (lower answer) "y") eqn:Hy; [|reflexivity].
  apply String.eqb_eq in Hy. apply lower_is_y in Hy.
  destruct Hy; contradiction.
Qed.

Lemma main_declined_save_witness :
  exists fig st,
    asked (quiet_world (csv [entry "A" 10; entry "B" 20; entry "C" 5]) "")
          fig st ""
    /\ run (quiet_world (csv [entry "A" 10; entry "B" 20; entry "C" 5]) "")
       = (Ret 0%Z, cleaned (printed st [save_prompt])).
Proof.
  eexists. eexists.
  match goal with |- ?A /\ _ => assert (Hasked : A) end.
  { split; [split; [eexists; split; [eexists; split|]|]|]; lazy; reflexivity. }
  split; [exact Hasked|].
  apply (main_declined_save _ _ _ "" Hasked); discriminate.
Defined.
